(** * chatUI: the session and message store of the two Streamlit front-ends

    The repository holds two variants of one chat front-end.  Both keep their
    history in a SQLite file reached through Python's [sqlite3] module and
    forward the user's text to a webhook:

    - [chatUI-Copilot.py] stores one row per turn, [(user_message,
      llm_response)], and opens its connections through a context manager;
    - [chatUI-Sqlite.py] stores one row per side of a turn, [(role, content)],
      tracks [last_updated] on the session and opens and closes its
      connections by hand.

    The development below embeds the persistence functions and the two
    handlers that write to the store (chat input, retry) of both files, over a
    small model of what [sqlite3] does with the statements they issue.

    A Python [str] is a [string], one [ascii] per character: the scripts only
    compare texts, take their length and cut a prefix.  [datetime.now()] and
    [uuid.uuid4()] are arguments of the functions that call them. *)

From Stdlib Require Import List ZArith Bool String Lia Permutation Sorted.
Import ListNotations.
Open Scope string_scope.
Open Scope list_scope.
Open Scope Z_scope.

Set Implicit Arguments.

(** ** Exceptions and results *)

(** The exceptions the modelled code can meet.  [OperationalError] and
    [IntegrityError] are the two subclasses of [sqlite3.Error] that the issued
    statements can raise; [RequestException] stands for every exception of
    [requests.exceptions] (connection failure, HTTP error status, a body that
    is not JSON); [KeyError] is the missing ["output"] field. *)
Inductive exn : Type :=
| OperationalError (msg : string)
| IntegrityError (msg : string)
| RequestException
| KeyError (key : string).

Inductive result (A : Type) : Type :=
| Ok (a : A)
| Raise (e : exn).

Arguments Ok {A} a.
Arguments Raise {A} e.

(** ** A state and exception monad

    [M W A] is a Python computation over a world [W]: it returns a value or
    raises, and in both cases leaves a world behind. *)
Definition M (W A : Type) : Type := W -> result A * W.

Definition ret {W A} (a : A) : M W A := fun w => (Ok a, w).

Definition raise {W A} (e : exn) : M W A := fun w => (Raise e, w).

Definition bind {W A B} (m : M W A) (k : A -> M W B) : M W B :=
  fun w =>
    match m w with
    | (Ok a, w') => k a w'
    | (Raise e, w') => (Raise e, w')
    end.

(** [try: m finally: f]: [f] runs on every exit path of [m], and the outcome
    of [m] (value or exception) is the outcome of the whole. *)
Definition finally {W A} (m : M W A) (f : M W unit) : M W A :=
  fun w =>
    let (r, w') := m w in
    let (_, w'') := f w' in
    (r, w'').

Notation "x <- m ;; k" := (bind m (fun x => k))
  (at level 61, m at next level, right associativity).
Notation "m ;;; k" := (bind m (fun _ => k))
  (at level 61, right associativity).

(** The world after [n] calls of [m] in a row, whatever each call returned
    or raised. *)
Definition times {W A} (n : nat) (m : M W A) (w : W) : W :=
  Nat.iter n (fun w' => snd (m w')) w.

Fixpoint for_each {W A B} (f : A -> M W B) (l : list A) : M W (list B) :=
  match l with
  | [] => ret []
  | a :: l' => b <- f a ;; bs <- for_each f l' ;; ret (b :: bs)
  end.

(** ** SQL result ordering

    [ORDER BY] is modelled as a stable insertion sort of the rows in the order
    the table scan delivers them (rowid order).  SQLite leaves the order of
    rows with equal keys unspecified; the properties below that speak about a
    definite order are stated where the keys differ. *)
Fixpoint insert_sorted {A} (le : A -> A -> bool) (x : A) (l : list A) : list A :=
  match l with
  | [] => [x]
  | y :: l' => if le x y then x :: l else y :: insert_sorted le x l'
  end.

Definition order_by {A} (le : A -> A -> bool) (l : list A) : list A :=
  fold_right (insert_sorted le) [] l.

Definition asc {A} (key : A -> Z) (a b : A) : bool := key a <=? key b.
Definition desc {A} (key : A -> Z) (a b : A) : bool := key b <=? key a.

(** ** The [sqlite3] module, as far as the two programs use it

    A database file holds the two tables of the schema, each either absent or
    present with its rows in rowid order, and may be read-only.  Timestamps
    are what [datetime.now()] returned, as microseconds on the time line:
    [sqlite3] stores them as ISO-8601 text whose lexicographic order is the
    chronological one. *)
Record database (S R : Type) : Type := Database {
  sessions_table : option (list S);
  messages_table : option (list R);
  readonly : bool
}.

(** A connection sees the file as of its last statement, including its own
    uncommitted changes.  [foreign_keys] is the per-connection
    [PRAGMA foreign_keys], which SQLite switches off on every new
    connection. *)
Record connection (S R : Type) : Type := Connection {
  view : database S R;
  in_transaction : bool;
  foreign_keys : bool
}.

(** The world of a running script: the committed file, the number of
    connections that are open, and Streamlit's [st.session_state]. *)
Record world (S R U : Type) : Type := World {
  disk : database S R;
  open_connections : nat;
  session_state : U
}.

Section Sqlite3.
Context {S R U : Type}.

(** How the schema of a variant reads its rows. *)
Variable sessions_name : string.
Variable session_key : S -> string.
Variable message_id : R -> Z.
Variable message_session : R -> string.

Definition no_such_table (name : string) : exn :=
  OperationalError (String.append "no such table: " name).

Definition readonly_database : exn :=
  OperationalError "attempt to write a readonly database".

(** [sqlite3.connect(DB_PATH)] *)
Definition connect : M (world S R U) (connection S R) :=
  fun w =>
    (Ok (Connection (disk w) false false),
     World (disk w) (Datatypes.S (open_connections w)) (session_state w)).

(** [conn.close()]: changes that were not committed are dropped with the
    connection. *)
Definition close (conn : connection S R) : M (world S R U) unit :=
  fun w =>
    (Ok tt, World (disk w) (Nat.pred (open_connections w)) (session_state w)).

(** [conn.commit()] *)
Definition commit (conn : connection S R) : M (world S R U) (connection S R) :=
  fun w =>
    if in_transaction conn
    then (Ok (Connection (view conn) false (foreign_keys conn)),
          World (view conn) (open_connections w) (session_state w))
    else (Ok conn, w).

(** A data-definition statement does not open a transaction: outside one it
    is committed as soon as it has run. *)
Definition run_ddl (conn : connection S R) (v : database S R)
  : M (world S R U) (connection S R) :=
  fun w =>
    if in_transaction conn
    then (Ok (Connection v true (foreign_keys conn)), w)
    else (Ok (Connection v false (foreign_keys conn)),
          World v (open_connections w) (session_state w)).

(** A data-manipulation statement opens a transaction if none is open. *)
Definition run_dml (conn : connection S R) (v : database S R)
  : M (world S R U) (connection S R) :=
  ret (Connection v true (foreign_keys conn)).

(** [CREATE TABLE IF NOT EXISTS <sessions> (...)] *)
Definition create_sessions_table (conn : connection S R)
  : M (world S R U) (connection S R) :=
  match sessions_table (view conn) with
  | Some _ => ret conn
  | None =>
      if readonly (view conn) then raise readonly_database
      else run_ddl conn
             (Database (Some []) (messages_table (view conn)) false)
  end.

(** [CREATE TABLE IF NOT EXISTS messages (...)] *)
Definition create_messages_table (conn : connection S R)
  : M (world S R U) (connection S R) :=
  match messages_table (view conn) with
  | Some _ => ret conn
  | None =>
      if readonly (view conn) then raise readonly_database
      else run_ddl conn
             (Database (sessions_table (view conn)) (Some []) false)
  end.

(** The rowid of a new row of an [INTEGER PRIMARY KEY] table: one more than
    the largest in use.  ([AUTOINCREMENT] differs only once rows have been
    deleted, which neither program does.) *)
Definition next_rowid (rows : list R) : Z :=
  1 + fold_right Z.max 0 (map message_id rows).

Definition session_exists (v : database S R) (sid : string) : bool :=
  match sessions_table v with
  | Some ss => existsb (fun s => String.eqb (session_key s) sid) ss
  | None => false
  end.

(** [INSERT INTO messages (...) VALUES (...)]; [mk] builds the row from the
    rowid the table assigns.  The [FOREIGN KEY] clause of the schema is
    checked only on a connection whose [foreign_keys] pragma is on. *)
Definition insert_message (mk : Z -> R) (conn : connection S R)
  : M (world S R U) (connection S R) :=
  match messages_table (view conn) with
  | None => raise (no_such_table "messages")
  | Some rows =>
      if readonly (view conn) then raise readonly_database
      else
        let row := mk (next_rowid rows) in
        if foreign_keys conn
           && negb (session_exists (view conn) (message_session row))
        then raise (IntegrityError "FOREIGN KEY constraint failed")
        else run_dml conn
               (Database (sessions_table (view conn))
                         (Some (rows ++ [row])) false)
  end.

(** [INSERT INTO <sessions> (...) VALUES (...)]; the session id is the
    primary key. *)
Definition insert_session (row : S) (conn : connection S R)
  : M (world S R U) (connection S R) :=
  match sessions_table (view conn) with
  | None => raise (no_such_table sessions_name)
  | Some rows =>
      if readonly (view conn) then raise readonly_database
      else if existsb (fun s => String.eqb (session_key s) (session_key row)) rows
      then raise (IntegrityError "UNIQUE constraint failed")
      else run_dml conn
             (Database (Some (rows ++ [row]))
                       (messages_table (view conn)) false)
  end.

(** [UPDATE <sessions> SET ... WHERE ...] *)
Definition update_sessions (where_ : S -> bool) (set : S -> S)
           (conn : connection S R)
  : M (world S R U) (connection S R) :=
  match sessions_table (view conn) with
  | None => raise (no_such_table sessions_name)
  | Some rows =>
      if readonly (view conn) then raise readonly_database
      else run_dml conn
             (Database (Some (map (fun s => if where_ s then set s else s) rows))
                       (messages_table (view conn)) false)
  end.

(** The scan behind a [SELECT ... FROM messages]. *)
Definition select_messages (conn : connection S R)
  : M (world S R U) (list R) :=
  match messages_table (view conn) with
  | None => raise (no_such_table "messages")
  | Some rows => ret rows
  end.

(** The scan behind a [SELECT ... FROM <sessions>]. *)
Definition select_sessions (conn : connection S R)
  : M (world S R U) (list S) :=
  match sessions_table (view conn) with
  | None => raise (no_such_table sessions_name)
  | Some rows => ret rows
  end.

(** [st.session_state] *)
Definition get_state : M (world S R U) U :=
  fun w => (Ok (session_state w), w).

Definition put_state (u : U) : M (world S R U) unit :=
  fun w => (Ok tt, World (disk w) (open_connections w) u).

End Sqlite3.

(** The world in which one more connection is open: where a function that
    closes its connection by hand is left when a statement raises before
    [conn.close()]. *)
Definition left_open {S R U} (w : world S R U) : world S R U :=
  World (disk w) (Datatypes.S (open_connections w)) (session_state w).

(** The rows of a table, none if the table is absent. *)
Definition rows_of {A} (table : option (list A)) : list A :=
  match table with
  | Some rows => rows
  | None => []
  end.

(** ** The webhook

    What one [requests.post] to the webhook comes back with. *)
Inductive http_body : Type :=
| NotJson
| Json (output : option string).

Inductive http_outcome : Type :=
| ConnectionFailed
| Response (status_ok : bool) (body : http_body).

(** ** chatUI-Copilot.py: one row per turn *)
Module Copilot.

(** A row of [sessions (session_id TEXT PRIMARY KEY, created_at TIMESTAMP)]. *)
Record session : Type := Session {
  session_id : string;
  created_at : Z
}.

(** A row of [messages (id INTEGER PRIMARY KEY, session_id TEXT,
    user_message TEXT, llm_response TEXT, timestamp TIMESTAMP, FOREIGN KEY
    (session_id) REFERENCES sessions(session_id))]. *)
Record message : Type := Message {
  id : Z;
  msg_session_id : string;
  user_message : string;
  llm_response : string;
  timestamp : Z
}.

(** [st.session_state] holds the id of the current session. *)
Definition state : Type := string.

Definition db : Type := database session message.
Definition conn : Type := connection session message.
Definition W : Type := world session message state.

(** The webhook answers as it pleases; it may look at what is committed at
    the moment it is called, at the session id and at the text sent. *)
Definition gateway : Type := db -> string -> string -> http_outcome.

Definition insert_sessions_row (row : session) (c : conn) : M W conn :=
  insert_session "sessions" session_id row c.

Definition insert_messages_row (mk : Z -> message) (c : conn) : M W conn :=
  insert_message session_id id msg_session_id mk c.

(** The context manager [get_db_connection]: the connection is closed in
    the [finally] clause; the [except] clause logs and re-raises. *)
Definition get_db_connection {A} (body : conn -> M W A) : M W A :=
  c <- connect ;;
  finally (body c) (close c).

Definition init_db : M W unit :=
  get_db_connection (fun c =>
    c <- create_sessions_table c ;;
    c <- create_messages_table c ;;
    commit c ;;;
    ret tt).

(** [now] is the reading of [datetime.now()]. *)
Definition save_message (sid user_msg llm_resp : string) (now : Z) : M W unit :=
  get_db_connection (fun c =>
    c <- insert_messages_row (fun i => Message i sid user_msg llm_resp now) c ;;
    commit c ;;;
    ret tt).

(** [SELECT session_id, created_at FROM sessions ORDER BY created_at DESC] *)
Definition get_sessions : M W (list (string * Z)) :=
  get_db_connection (fun c =>
    rows <- select_sessions "sessions" c ;;
    ret (map (fun s => (session_id s, created_at s))
             (order_by (desc created_at) rows))).

(** The rows selected by [WHERE session_id = ? ORDER BY timestamp]. *)
Definition session_rows (sid : string) (rows : list message) : list message :=
  order_by (asc timestamp)
           (filter (fun m => String.eqb (msg_session_id m) sid) rows).

(** [SELECT user_message, llm_response FROM messages WHERE session_id = ?
    ORDER BY timestamp] *)
Definition get_session_messages (sid : string) : M W (list (string * string)) :=
  get_db_connection (fun c =>
    rows <- select_messages c ;;
    ret (map (fun m => (user_message m, llm_response m))
             (session_rows sid rows))).

Definition create_session (sid : string) (now : Z) : M W unit :=
  get_db_connection (fun c =>
    c <- insert_sessions_row (Session sid now) c ;;
    commit c ;;;
    ret tt).

(** [send_message]: nothing is caught, so a failed request, a body that is
    not JSON and a body without ["output"] all raise; the HTTP status is not
    looked at. *)
Definition send_message (gw : gateway) (message : string) : M W string :=
  fun w =>
    match gw (disk w) (session_state w) message with
    | ConnectionFailed => (Raise RequestException, w)
    | Response _ NotJson => (Raise RequestException, w)
    | Response _ (Json None) => (Raise (KeyError "output"), w)
    | Response _ (Json (Some output)) => (Ok output, w)
    end.

(** The body of the retry button shown under a stored turn whose user text
    is [user_msg]. *)
Definition retry (gw : gateway) (user_msg : string) (now : Z) : M W unit :=
  new_response <- send_message gw user_msg ;;
  sid <- get_state ;;
  save_message sid user_msg new_response now.

(** The chat input handler; [st.chat_input] yields nothing or a non-empty
    text, and the walrus test skips the empty one.  The retry button drawn
    under the fresh reply cannot fire in the run that draws it. *)
Definition chat_input (gw : gateway) (prompt : string) (now : Z) : M W unit :=
  if String.eqb prompt "" then ret tt
  else
    response <- send_message gw prompt ;;
    sid <- get_state ;;
    save_message sid prompt response now.

(** The operations of the script that touch the store. *)
Inductive operation : Type :=
| InitDb
| SaveMessage (sid user_msg llm_resp : string) (now : Z)
| GetSessions
| GetSessionMessages (sid : string)
| CreateSession (sid : string) (now : Z)
| Retry (gw : gateway) (user_msg : string) (now : Z)
| ChatInput (gw : gateway) (prompt : string) (now : Z).

(** The world an operation leaves behind, whatever it returns or raises. *)
Definition run (o : operation) (w : W) : W :=
  match o with
  | InitDb => snd (init_db w)
  | SaveMessage sid u r now => snd (save_message sid u r now w)
  | GetSessions => snd (get_sessions w)
  | GetSessionMessages sid => snd (get_session_messages sid w)
  | CreateSession sid now => snd (create_session sid now w)
  | Retry gw u now => snd (retry gw u now w)
  | ChatInput gw p now => snd (chat_input gw p now w)
  end.

(** The body of [if 'session_id' not in st.session_state], taken on the first
    run of a browser session: the fresh id is made current, then its row is
    inserted.  [fresh] is the text of [uuid.uuid4()]. *)
Definition start_session (fresh : string) (now : Z) : M W unit :=
  put_state fresh ;;;
  create_session fresh now.

(** The body of a sidebar button of session [sid], before the rerun. *)
Definition select_session (sid : string) : M W unit :=
  put_state sid.

(** The query at the top of the chat page: the stored turns of the current
    session, as fetched for display.  The loop that draws them is not
    modelled. *)
Definition show_history : M W (list (string * string)) :=
  sid <- get_state ;;
  get_session_messages sid.

(** Everything the script does between two reruns. *)
Inductive action : Type :=
| Operation (o : operation)
| StartSession (fresh : string) (now : Z)
| SelectSession (sid : string)
| ShowHistory.

Definition act (a : action) (w : W) : W :=
  match a with
  | Operation o => run o w
  | StartSession fresh now => snd (start_session fresh now w)
  | SelectSession sid => snd (select_session sid w)
  | ShowHistory => snd (show_history w)
  end.

End Copilot.

(** ** chatUI-Sqlite.py: one row per side of a turn *)
Module Sqlite.

(** A row of [chat_sessions (session_id TEXT PRIMARY KEY, created_at
    TIMESTAMP, last_updated TIMESTAMP)]. *)
Record session : Type := Session {
  session_id : string;
  created_at : Z;
  last_updated : Z
}.

(** A row of [messages (id INTEGER PRIMARY KEY AUTOINCREMENT, session_id
    TEXT, role TEXT, content TEXT, timestamp TIMESTAMP, FOREIGN KEY
    (session_id) REFERENCES chat_sessions (session_id))]. *)
Record message : Type := Message {
  id : Z;
  msg_session_id : string;
  role : string;
  content : string;
  timestamp : Z
}.

(** [st.session_state]: the current session id and the transcript on
    display, a list of [{"role": ..., "content": ...}]. *)
Record state : Type := State {
  current_session : string;
  messages : list (string * string)
}.

Definition db : Type := database session message.
Definition conn : Type := connection session message.
Definition W : Type := world session message state.

Definition gateway : Type := db -> string -> string -> http_outcome.

Definition insert_sessions_row (row : session) (c : conn) : M W conn :=
  insert_session "chat_sessions" session_id row c.

Definition insert_messages_row (mk : Z -> message) (c : conn) : M W conn :=
  insert_message session_id id msg_session_id mk c.

(** Every function below opens its connection and closes it as its last
    statement; there is no [try] around the statements in between. *)
Definition init_db : M W unit :=
  c <- connect ;;
  c <- create_sessions_table c ;;
  c <- create_messages_table c ;;
  c <- commit c ;;
  close c.

Definition save_message (sid role_ content_ : string) (now : Z) : M W unit :=
  c <- connect ;;
  c <- insert_messages_row (fun i => Message i sid role_ content_ now) c ;;
  c <- update_sessions "chat_sessions"
         (fun s => String.eqb (session_id s) sid)
         (fun s => Session (session_id s) (created_at s) now) c ;;
  c <- commit c ;;
  close c.

(** [fresh] is the text of [uuid.uuid4()]. *)
Definition create_new_session (fresh : string) (now : Z) : M W string :=
  c <- connect ;;
  c <- insert_sessions_row (Session fresh now now) c ;;
  c <- commit c ;;
  close c ;;;
  ret fresh.

(** The rows selected by [WHERE session_id = ? ORDER BY timestamp]. *)
Definition session_rows (sid : string) (rows : list message) : list message :=
  order_by (asc timestamp)
           (filter (fun m => String.eqb (msg_session_id m) sid) rows).

(** [SELECT role, content FROM messages WHERE session_id = ? ORDER BY
    timestamp] *)
Definition get_session_messages (sid : string) : M W (list (string * string)) :=
  c <- connect ;;
  rows <- select_messages c ;;
  close c ;;;
  ret (map (fun m => (role m, content m)) (session_rows sid rows)).

(** The rows selected by [WHERE session_id = ? AND role = 'user' ORDER BY
    timestamp]. *)
Definition user_rows (sid : string) (rows : list message) : list message :=
  order_by (asc timestamp)
           (filter (fun m => String.eqb (msg_session_id m) sid
                             && String.eqb (role m) "user") rows).

(** [SELECT content ... LIMIT 1], then [result[0] if result else ""]. *)
Definition get_first_user_message (sid : string) : M W string :=
  c <- connect ;;
  rows <- select_messages c ;;
  close c ;;;
  ret match user_rows sid rows with
      | m :: _ => content m
      | [] => ""
      end.

Definition row_eq_dec (a b : string * Z * Z) : {a = b} + {a <> b}.
Proof.
  decide equality; [apply Z.eq_dec | decide equality; [apply Z.eq_dec | apply string_dec]].
Defined.

(** The rows of [chat_sessions INNER JOIN messages ON
    chat_sessions.session_id = messages.session_id], projected on the three
    selected columns. *)
Definition join_rows (ss : list session) (ms : list message)
  : list (string * Z * Z) :=
  flat_map (fun s =>
              map (fun _ => (session_id s, created_at s, last_updated s))
                  (filter (fun m => String.eqb (session_id s) (msg_session_id m)) ms))
           ss.

(** [SELECT DISTINCT ... FROM chat_sessions INNER JOIN messages ... ORDER BY
    chat_sessions.last_updated DESC] *)
Definition get_all_sessions : M W (list (string * Z * Z)) :=
  c <- connect ;;
  ss <- select_sessions "chat_sessions" c ;;
  ms <- select_messages c ;;
  close c ;;;
  ret (order_by (desc (fun r : string * Z * Z => snd r))
                (nodup row_eq_dec (join_rows ss ms))).

(** [send_message]: every [RequestException] is caught and turned into
    [None]; a JSON body without ["output"] raises [KeyError]. *)
Definition send_message (gw : gateway) (message : string) : M W (option string) :=
  fun w =>
    match gw (disk w) (current_session (session_state w)) message with
    | ConnectionFailed => (Ok None, w)
    | Response false _ => (Ok None, w)
    | Response true NotJson => (Ok None, w)
    | Response true (Json None) => (Raise (KeyError "output"), w)
    | Response true (Json (Some output)) => (Ok (Some output), w)
    end.

(** [(first_message[:24] + "...") if len(first_message) > 27 else
    first_message] *)
Definition display_text (first_message : string) : string :=
  if (27 <? String.length first_message)%nat
  then String.append (substring 0 24 first_message) "..."
  else first_message.

(** The sidebar loop: one button per listed session, labelled with the
    preview and keyed by the session id. *)
Definition sidebar : M W (list (string * string)) :=
  sessions <- get_all_sessions ;;
  for_each (fun r : string * Z * Z =>
              first_message <- get_first_user_message (fst (fst r)) ;;
              ret (display_text first_message, fst (fst r)))
           sessions.

(** [st.session_state.messages.append({"role": ..., "content": ...})] *)
Definition append_shown (role_ content_ : string) : M W unit :=
  st <- get_state ;;
  put_state (State (current_session st) (messages st ++ [(role_, content_)])).

(** The chat input handler.  [if response:] is false for [None] and for the
    empty text. *)
Definition chat_input (gw : gateway) (prompt : string) (t_user t_reply : Z)
  : M W unit :=
  if String.eqb prompt "" then ret tt
  else
    append_shown "user" prompt ;;;
    st <- get_state ;;
    save_message (current_session st) "user" prompt t_user ;;;
    response <- send_message gw prompt ;;
    match response with
    | None => ret tt
    | Some reply =>
        if String.eqb reply "" then ret tt
        else
          append_shown "assistant" reply ;;;
          st <- get_state ;;
          save_message (current_session st) "assistant" reply t_reply
    end.

(** The operations of the script that touch the store. *)
Inductive operation : Type :=
| InitDb
| SaveMessage (sid role_ content_ : string) (now : Z)
| CreateNewSession (fresh : string) (now : Z)
| GetSessionMessages (sid : string)
| GetFirstUserMessage (sid : string)
| GetAllSessions
| Sidebar
| ChatInput (gw : gateway) (prompt : string) (t_user t_reply : Z).

Definition run (o : operation) (w : W) : W :=
  match o with
  | InitDb => snd (init_db w)
  | SaveMessage sid r c now => snd (save_message sid r c now w)
  | CreateNewSession fresh now => snd (create_new_session fresh now w)
  | GetSessionMessages sid => snd (get_session_messages sid w)
  | GetFirstUserMessage sid => snd (get_first_user_message sid w)
  | GetAllSessions => snd (get_all_sessions w)
  | Sidebar => snd (sidebar w)
  | ChatInput gw p t1 t2 => snd (chat_input gw p t1 t2 w)
  end.

(** [st.session_state.session_id = ...] and [st.session_state.messages = ...] *)
Definition set_session_id (sid : string) : M W unit :=
  st <- get_state ;;
  put_state (State sid (messages st)).

Definition set_messages (shown : list (string * string)) : M W unit :=
  st <- get_state ;;
  put_state (State (current_session st) shown).

(** The body of the Start New Chat button (and of the two guards that fill
    an empty [st.session_state] on the first run): the session is created,
    then made current with an empty transcript on display. *)
Definition start_new_chat (fresh : string) (now : Z) : M W unit :=
  sid <- create_new_session fresh now ;;
  set_session_id sid ;;;
  set_messages [].

(** The body of the sidebar button of session [sid], before the rerun. *)
Definition select_session (sid : string) : M W unit :=
  set_session_id sid ;;;
  shown <- get_session_messages sid ;;
  set_messages shown.

(** Everything the script does between two reruns. *)
Inductive action : Type :=
| Operation (o : operation)
| StartNewChat (fresh : string) (now : Z)
| SelectSession (sid : string).

Definition act (a : action) (w : W) : W :=
  match a with
  | Operation o => run o w
  | StartNewChat fresh now => snd (start_new_chat fresh now w)
  | SelectSession sid => snd (select_session sid w)
  end.

End Sqlite.

(** ** Vocabulary of the properties *)

(** [rows] is the transcript of session [sid] in [table]: the rows of the
    session, each as often as the table holds it, in ascending order of
    their timestamps; rows written at strictly increasing times come in the
    order they were written, and a session without rows has the empty
    transcript. *)
Definition ordered_transcript {R} (session_of : R -> string) (time_of : R -> Z)
           (sid : string) (table rows : list R) : Prop :=
  let mine := filter (fun m => String.eqb (session_of m) sid) table in
  Permutation rows mine
  /\ (forall m, In m rows <-> In m table /\ session_of m = sid)
  /\ StronglySorted (fun a b => time_of a <= time_of b) rows
  /\ (StronglySorted (fun a b => time_of a < time_of b) mine -> rows = mine)
  /\ ((forall m, In m table -> session_of m <> sid) -> rows = []).

(** [text] is the first user-authored message of session [sid] in [table]:
    the content of a row of the session with role ["user"] that no other such
    row precedes in time, or the empty text if the session has no such row. *)
Definition first_user_message (table : list Sqlite.message) (sid text : string)
  : Prop :=
  (text = ""
   /\ forall m, In m table ->
                ~ (Sqlite.msg_session_id m = sid /\ Sqlite.role m = "user"))
  \/
  (exists m, In m table
             /\ Sqlite.msg_session_id m = sid /\ Sqlite.role m = "user"
             /\ Sqlite.content m = text
             /\ forall m', In m' table ->
                           Sqlite.msg_session_id m' = sid -> Sqlite.role m' = "user" ->
                           Sqlite.timestamp m <= Sqlite.timestamp m').

(** Both tables of the schema are there. *)
Definition has_tables {S R} (d : database S R) : Prop :=
  sessions_table d <> None /\ messages_table d <> None.

(** The transcript on display in chatUI-Sqlite is the stored transcript of the
    current session. *)
Definition shown_is_stored (w : Sqlite.W) : Prop :=
  fst (Sqlite.get_session_messages
         (Sqlite.current_session (session_state w)) w)
  = Ok (Sqlite.messages (session_state w)).

(** ** Sample stores and webhooks *)

(** A file that [sqlite3.connect] has just created. *)
Definition copilot_new_file : Copilot.W :=
  World (Database None None false) 0%nat "s1".

Definition sqlite_new_file : Sqlite.W :=
  World (Database None None false) 0%nat (Sqlite.State "s1" []).

(** Two sessions; the current one, ["s1"], has two turns. *)
Definition copilot_store : Copilot.W :=
  World (Database (Some [Copilot.Session "s1" 10; Copilot.Session "s2" 20])
                  (Some [Copilot.Message 1 "s1" "ping" "pong" 30;
                         Copilot.Message 2 "s2" "hello" "hi there" 40;
                         Copilot.Message 3 "s1" "again" "sure" 50])
                  false)
        0%nat "s1".

(** Two sessions created at times [10 < 20]; only the second has messages. *)
Definition sqlite_store : Sqlite.W :=
  World (Database (Some [Sqlite.Session "s1" 10 10; Sqlite.Session "s2" 20 45])
                  (Some [Sqlite.Message 1 "s2" "user" "hello" 40;
                         Sqlite.Message 2 "s2" "assistant" "hi there" 45])
                  false)
        0%nat
        (Sqlite.State "s2" [("user", "hello"); ("assistant", "hi there")]).

(** The same file once it can no longer be written. *)
Definition sqlite_store_readonly : Sqlite.W :=
  World (Database (sessions_table (disk sqlite_store))
                  (messages_table (disk sqlite_store)) true)
        0%nat (session_state sqlite_store).

(** A session whose first user message has 25 characters. *)
Definition sqlite_store_25 : Sqlite.W :=
  World (Database (Some [Sqlite.Session "s1" 10 12])
                  (Some [Sqlite.Message 1 "s1" "user" "abcdefghijklmnopqrstuvwxy" 11;
                         Sqlite.Message 2 "s1" "assistant" "ok" 12])
                  false)
        0%nat (Sqlite.State "s1" []).

(** A webhook that cannot be reached, and one that always answers. *)
Definition copilot_gateway_down : Copilot.gateway :=
  fun _ _ _ => ConnectionFailed.

Definition copilot_gateway_pong : Copilot.gateway :=
  fun _ _ _ => Response true (Json (Some "pong")).

Definition sqlite_gateway_down : Sqlite.gateway :=
  fun _ _ _ => ConnectionFailed.

(** A webhook that answers only if it finds the text it is sent already
    committed to the file. *)
Definition sqlite_gateway_reads_store : Sqlite.gateway :=
  fun d _ text =>
    if existsb (fun m => String.eqb (Sqlite.content m) text)
               (rows_of (messages_table d))
    then Response true (Json (Some "pong"))
    else ConnectionFailed.

Definition copilot_gateway_reads_store : Copilot.gateway :=
  fun d _ text =>
    if existsb (fun m => String.eqb (Copilot.user_message m) text)
               (rows_of (messages_table d))
    then Response true (Json (Some "pong"))
    else ConnectionFailed.

(** ** Tactics

    Unfolding the scripts down to the state they thread. *)
Ltac unfold_sqlite3 :=
  unfold bind, ret, raise, finally, connect, close, commit, run_ddl, run_dml,
    create_sessions_table, create_messages_table, insert_message,
    insert_session, update_sessions, select_messages, select_sessions,
    get_state, put_state, session_exists in *.

Ltac unfold_copilot :=
  unfold Copilot.run, Copilot.chat_input, Copilot.retry, Copilot.init_db,
    Copilot.save_message, Copilot.get_sessions, Copilot.get_session_messages,
    Copilot.create_session, Copilot.send_message, Copilot.get_db_connection,
    Copilot.insert_sessions_row, Copilot.insert_messages_row in *;
  unfold_sqlite3.

Ltac unfold_sqlite :=
  unfold Sqlite.run, Sqlite.chat_input, Sqlite.append_shown, Sqlite.init_db,
    Sqlite.save_message, Sqlite.create_new_session,
    Sqlite.get_session_messages, Sqlite.get_first_user_message,
    Sqlite.get_all_sessions, Sqlite.send_message,
    Sqlite.insert_sessions_row, Sqlite.insert_messages_row in *;
  unfold_sqlite3.

(** Closing a goal [table = Some (rows ++ ?extra)]. *)
Ltac appended :=
  first [ exists []; rewrite app_nil_r; reflexivity
        | eexists; reflexivity
        | eexists; rewrite <- app_assoc; reflexivity ].

(** * Properties *)

Lemma StronglySorted_weaken {A} (P Q : A -> A -> Prop) (l : list A) :
  (forall a b, P a b -> Q a b) -> StronglySorted P l -> StronglySorted Q l.
Proof.
  intros HPQ. induction 1 as [|x l Hl IH Hx]; constructor.
  - exact IH.
  - eapply Forall_impl; [|exact Hx]. intros b. apply HPQ.
Qed.

(** ** [ORDER BY]: a sorted permutation *)
Section OrderBy.
Context {A : Type}.
Variable le : A -> A -> bool.

Hypothesis le_total : forall a b, le a b = false -> le b a = true.
Hypothesis le_trans : forall a b c, le a b = true -> le b c = true -> le a c = true.

Let R (a b : A) : Prop := le a b = true.

Lemma insert_sorted_perm (x : A) (l : list A) :
  Permutation (insert_sorted le x l) (x :: l).
Proof.
  induction l as [|y l IH]; simpl.
  - apply Permutation_refl.
  - destruct (le x y).
    + apply Permutation_refl.
    + eapply perm_trans; [apply perm_skip, IH | apply perm_swap].
Qed.

Lemma order_by_perm (l : list A) : Permutation (order_by le l) l.
Proof.
  induction l as [|x l IH]; simpl.
  - constructor.
  - eapply perm_trans; [apply insert_sorted_perm | apply perm_skip, IH].
Qed.

Lemma insert_sorted_strongly (x : A) (l : list A) :
  StronglySorted R l -> StronglySorted R (insert_sorted le x l).
Proof.
  induction 1 as [|y l Hl IH Hy]; simpl.
  - repeat constructor.
  - destruct (le x y) eqn:Hxy.
    + constructor; [constructor; assumption|].
      constructor; [exact Hxy|].
      eapply Forall_impl; [|exact Hy].
      intros b Hb. eapply le_trans; eassumption.
    + constructor; [exact IH|].
      apply (Permutation_Forall (Permutation_sym (insert_sorted_perm x l))).
      constructor; [apply le_total; exact Hxy | exact Hy].
Qed.

Lemma order_by_sorted (l : list A) : StronglySorted R (order_by le l).
Proof.
  induction l as [|x l IH]; simpl.
  - constructor.
  - apply insert_sorted_strongly, IH.
Qed.

(** Rows that already come in order are returned as they are. *)
Lemma order_by_of_sorted (l : list A) :
  StronglySorted R l -> order_by le l = l.
Proof.
  induction 1 as [|x l Hl IH Hx]; simpl.
  - reflexivity.
  - rewrite IH. destruct Hx as [|y l' Hxy _]; simpl.
    + reflexivity.
    + unfold R in Hxy. rewrite Hxy. reflexivity.
Qed.

End OrderBy.

Section KeyOrder.
Context {A : Type}.
Variable key : A -> Z.

Lemma asc_total (a b : A) : asc key a b = false -> asc key b a = true.
Proof. unfold asc. rewrite Z.leb_gt, Z.leb_le. lia. Qed.

Lemma asc_trans (a b c : A) :
  asc key a b = true -> asc key b c = true -> asc key a c = true.
Proof. unfold asc. rewrite !Z.leb_le. lia. Qed.

Lemma desc_total (a b : A) : desc key a b = false -> desc key b a = true.
Proof. unfold desc. rewrite Z.leb_gt, Z.leb_le. lia. Qed.

Lemma desc_trans (a b c : A) :
  desc key a b = true -> desc key b c = true -> desc key a c = true.
Proof. unfold desc. rewrite !Z.leb_le. lia. Qed.

Lemma order_by_asc_sorted (l : list A) :
  StronglySorted (fun a b => key a <= key b) (order_by (asc key) l).
Proof.
  eapply StronglySorted_weaken;
    [|apply (order_by_sorted (asc key) asc_total asc_trans)].
  intros a b Hab. apply Z.leb_le. exact Hab.
Qed.

Lemma order_by_desc_sorted (l : list A) :
  StronglySorted (fun a b => key b <= key a) (order_by (desc key) l).
Proof.
  eapply StronglySorted_weaken;
    [|apply (order_by_sorted (desc key) desc_total desc_trans)].
  intros a b Hab. apply Z.leb_le. exact Hab.
Qed.

Lemma order_by_asc_increasing (l : list A) :
  StronglySorted (fun a b => key a < key b) l -> order_by (asc key) l = l.
Proof.
  intros Hl. apply order_by_of_sorted.
  eapply StronglySorted_weaken; [|exact Hl].
  intros a b Hab. apply Z.leb_le. simpl in Hab. lia.
Qed.

End KeyOrder.

(** ** Running the scripts *)

(** A query on a file that has the table returns its rows and leaves the
    world as it found it. *)
Lemma copilot_get_session_messages_eval (sid : string) (w : Copilot.W)
      (ms : list Copilot.message) :
  messages_table (disk w) = Some ms ->
  Copilot.get_session_messages sid w
  = (Ok (map (fun m => (Copilot.user_message m, Copilot.llm_response m))
             (Copilot.session_rows sid ms)), w).
Proof.
  destruct w as [d n st]; simpl; intros H.
  unfold_copilot; simpl. rewrite H. reflexivity.
Qed.

Lemma copilot_get_sessions_eval (w : Copilot.W) (ss : list Copilot.session) :
  sessions_table (disk w) = Some ss ->
  Copilot.get_sessions w
  = (Ok (map (fun s => (Copilot.session_id s, Copilot.created_at s))
             (order_by (desc Copilot.created_at) ss)), w).
Proof.
  destruct w as [d n st]; simpl; intros H.
  unfold_copilot; simpl. rewrite H. reflexivity.
Qed.

Lemma sqlite_get_session_messages_eval (sid : string) (w : Sqlite.W)
      (ms : list Sqlite.message) :
  messages_table (disk w) = Some ms ->
  Sqlite.get_session_messages sid w
  = (Ok (map (fun m => (Sqlite.role m, Sqlite.content m))
             (Sqlite.session_rows sid ms)), w).
Proof.
  destruct w as [d n st]; simpl; intros H.
  unfold_sqlite; simpl. rewrite H. reflexivity.
Qed.

Lemma sqlite_get_first_user_message_eval (sid : string) (w : Sqlite.W)
      (ms : list Sqlite.message) :
  messages_table (disk w) = Some ms ->
  Sqlite.get_first_user_message sid w
  = (Ok match Sqlite.user_rows sid ms with
        | m :: _ => Sqlite.content m
        | [] => ""
        end, w).
Proof.
  destruct w as [d n st]; simpl; intros H.
  unfold_sqlite; simpl. rewrite H. reflexivity.
Qed.

Lemma sqlite_get_all_sessions_eval (w : Sqlite.W)
      (ss : list Sqlite.session) (ms : list Sqlite.message) :
  sessions_table (disk w) = Some ss ->
  messages_table (disk w) = Some ms ->
  Sqlite.get_all_sessions w
  = (Ok (order_by (desc (fun r : string * Z * Z => snd r))
                  (nodup Sqlite.row_eq_dec (Sqlite.join_rows ss ms))), w).
Proof.
  destruct w as [d n st]; simpl; intros Hs Hm.
  unfold_sqlite; simpl. rewrite Hs; simpl. rewrite Hm. reflexivity.
Qed.

(** ** Transcripts *)

Lemma filter_none {A} (f : A -> bool) (l : list A) :
  (forall a, In a l -> f a = false) -> filter f l = [].
Proof.
  induction l as [|a l IH]; simpl; intros H.
  - reflexivity.
  - rewrite (H a (or_introl eq_refl)). apply IH. intros b Hb. apply H. right. exact Hb.
Qed.

Lemma select_where_order_by_transcript {R} (session_of : R -> string)
      (time_of : R -> Z) (sid : string) (table : list R) :
  ordered_transcript session_of time_of sid table
    (order_by (asc time_of)
              (filter (fun m => String.eqb (session_of m) sid) table)).
Proof.
  unfold ordered_transcript.
  set (mine := filter (fun m => String.eqb (session_of m) sid) table).
  assert (Hperm : Permutation (order_by (asc time_of) mine) mine)
    by apply order_by_perm.
  split; [|split; [|split; [|split]]].
  - exact Hperm.
  - intros m. split.
    + intros Hm. apply (Permutation_in _ Hperm) in Hm.
      apply filter_In in Hm. destruct Hm as [Hin Hs].
      split; [exact Hin | apply String.eqb_eq; exact Hs].
    + intros [Hin Hs]. apply (Permutation_in _ (Permutation_sym Hperm)).
      apply filter_In. split; [exact Hin | apply String.eqb_eq; exact Hs].
  - apply order_by_asc_sorted.
  - apply order_by_asc_increasing.
  - intros Hnone. subst mine. rewrite filter_none; [reflexivity|].
    intros m Hm. apply String.eqb_neq. apply Hnone. exact Hm.
Qed.

(** C3: in both variants [get_session_messages sid], on a store that has the
    messages table, returns (without raising, and leaving the world as it
    was) the selected columns of exactly the rows whose session id is [sid],
    in ascending timestamp order; rows inserted at strictly increasing times
    come back in insertion order, and a session without messages yields the
    empty list. *)
Theorem get_session_messages_ordered_transcript :
  (forall (w : Copilot.W) (sid : string) (ms : list Copilot.message),
      messages_table (disk w) = Some ms ->
      exists rows,
        Copilot.get_session_messages sid w
        = (Ok (map (fun m => (Copilot.user_message m, Copilot.llm_response m)) rows), w)
        /\ ordered_transcript Copilot.msg_session_id Copilot.timestamp sid ms rows)
  /\
  (forall (w : Sqlite.W) (sid : string) (ms : list Sqlite.message),
      messages_table (disk w) = Some ms ->
      exists rows,
        Sqlite.get_session_messages sid w
        = (Ok (map (fun m => (Sqlite.role m, Sqlite.content m)) rows), w)
        /\ ordered_transcript Sqlite.msg_session_id Sqlite.timestamp sid ms rows).
Proof.
  split; intros w sid ms Hms.
  - exists (Copilot.session_rows sid ms). split.
    + apply copilot_get_session_messages_eval. exact Hms.
    + apply select_where_order_by_transcript.
  - exists (Sqlite.session_rows sid ms). split.
    + apply sqlite_get_session_messages_eval. exact Hms.
    + apply select_where_order_by_transcript.
Qed.

(** ** What [save_message] does to the store *)

Lemma copilot_save_message_eval (sid user_msg llm_resp : string) (now : Z)
      (w : Copilot.W) :
  Copilot.save_message sid user_msg llm_resp now w
  = match messages_table (disk w) with
    | None => (Raise (no_such_table "messages"), w)
    | Some ms =>
        if readonly (disk w) then (Raise readonly_database, w)
        else (Ok tt,
              World (Database (sessions_table (disk w))
                              (Some (ms ++ [Copilot.Message (next_rowid Copilot.id ms)
                                                            sid user_msg llm_resp now]))
                              false)
                    (open_connections w) (session_state w))
    end.
Proof.
  destruct w as [[ss [ms|] ro] n st]; unfold_copilot; simpl.
  - destruct ro; reflexivity.
  - reflexivity.
Qed.

Lemma sqlite_save_message_eval (sid role_ content_ : string) (now : Z)
      (w : Sqlite.W) :
  Sqlite.save_message sid role_ content_ now w
  = match messages_table (disk w) with
    | None => (Raise (no_such_table "messages"), left_open w)
    | Some ms =>
        if readonly (disk w) then (Raise readonly_database, left_open w)
        else
          match sessions_table (disk w) with
          | None => (Raise (no_such_table "chat_sessions"), left_open w)
          | Some ss =>
              (Ok tt,
               World (Database
                        (Some (map (fun s =>
                                      if String.eqb (Sqlite.session_id s) sid
                                      then Sqlite.Session (Sqlite.session_id s)
                                                          (Sqlite.created_at s) now
                                      else s) ss))
                        (Some (ms ++ [Sqlite.Message (next_rowid Sqlite.id ms)
                                                     sid role_ content_ now]))
                        false)
                     (open_connections w) (session_state w))
          end
    end.
Proof.
  destruct w as [[[ss|] [ms|] ro] n st]; unfold_sqlite; simpl;
    try reflexivity; destruct ro; reflexivity.
Qed.

Lemma copilot_get_session_messages_fst (sid : string) (w : Copilot.W) :
  fst (Copilot.get_session_messages sid w)
  = match messages_table (disk w) with
    | None => Raise (no_such_table "messages")
    | Some ms =>
        Ok (map (fun m => (Copilot.user_message m, Copilot.llm_response m))
                (Copilot.session_rows sid ms))
    end.
Proof.
  destruct (messages_table (disk w)) as [ms|] eqn:H.
  - rewrite (copilot_get_session_messages_eval sid w H). reflexivity.
  - destruct w as [d n st]; simpl in H. unfold_copilot; simpl. rewrite H. reflexivity.
Qed.

Lemma sqlite_get_session_messages_fst (sid : string) (w : Sqlite.W) :
  fst (Sqlite.get_session_messages sid w)
  = match messages_table (disk w) with
    | None => Raise (no_such_table "messages")
    | Some ms =>
        Ok (map (fun m => (Sqlite.role m, Sqlite.content m))
                (Sqlite.session_rows sid ms))
    end.
Proof.
  destruct (messages_table (disk w)) as [ms|] eqn:H.
  - rewrite (sqlite_get_session_messages_eval sid w H). reflexivity.
  - destruct w as [d n st]; simpl in H. unfold_sqlite; simpl. rewrite H. reflexivity.
Qed.

Lemma filter_snoc_other {R} (session_of : R -> string) (a b : string)
      (ms : list R) (row : R) :
  session_of row = a -> a <> b ->
  filter (fun m => String.eqb (session_of m) b) (ms ++ [row])
  = filter (fun m => String.eqb (session_of m) b) ms.
Proof.
  intros Hrow Hab. rewrite filter_app. simpl.
  rewrite Hrow. apply String.eqb_neq in Hab. rewrite Hab.
  apply app_nil_r.
Qed.

(** C4: for distinct sessions [a] and [b], in both variants, what
    [get_session_messages b] returns after [save_message a ...] is what it
    returned before, whether the save succeeded or raised. *)
Theorem save_message_leaves_other_transcripts (a b : string) :
  a <> b ->
  (forall (user_msg llm_resp : string) (now : Z) (w : Copilot.W),
      fst (Copilot.get_session_messages b
             (snd (Copilot.save_message a user_msg llm_resp now w)))
      = fst (Copilot.get_session_messages b w))
  /\
  (forall (role_ content_ : string) (now : Z) (w : Sqlite.W),
      fst (Sqlite.get_session_messages b
             (snd (Sqlite.save_message a role_ content_ now w)))
      = fst (Sqlite.get_session_messages b w)).
Proof.
  intros Hab. split; intros.
  - rewrite !copilot_get_session_messages_fst, copilot_save_message_eval.
    destruct (messages_table (disk w)) as [ms|] eqn:Hm; simpl.
    + destruct (readonly (disk w)); simpl; rewrite ?Hm; try reflexivity.
      unfold Copilot.session_rows.
      rewrite filter_snoc_other with (a := a);
        [reflexivity | reflexivity | exact Hab].
    + rewrite Hm. reflexivity.
  - rewrite !sqlite_get_session_messages_fst, sqlite_save_message_eval.
    destruct (messages_table (disk w)) as [ms|] eqn:Hm; simpl.
    + destruct (readonly (disk w)); simpl; rewrite ?Hm; try reflexivity.
      destruct (sessions_table (disk w)); simpl; rewrite ?Hm; try reflexivity.
      unfold Sqlite.session_rows.
      rewrite filter_snoc_other with (a := a);
        [reflexivity | reflexivity | exact Hab].
    + rewrite Hm. reflexivity.
Qed.

(** ** Store initialization *)

Lemma copilot_init_db_eval (w : Copilot.W) :
  Copilot.init_db w
  = match sessions_table (disk w), messages_table (disk w) with
    | Some _, Some _ => (Ok tt, w)
    | ss, ms =>
        if readonly (disk w) then (Raise readonly_database, w)
        else (Ok tt,
              World (Database (Some (rows_of ss)) (Some (rows_of ms)) false)
                    (open_connections w) (session_state w))
    end.
Proof.
  destruct w as [[[ss|] [ms|] ro] n st]; unfold_copilot; simpl;
    try reflexivity; destruct ro; reflexivity.
Qed.

Lemma sqlite_init_db_eval (w : Sqlite.W) :
  Sqlite.init_db w
  = match sessions_table (disk w), messages_table (disk w) with
    | Some _, Some _ => (Ok tt, w)
    | ss, ms =>
        if readonly (disk w) then (Raise readonly_database, left_open w)
        else (Ok tt,
              World (Database (Some (rows_of ss)) (Some (rows_of ms)) false)
                    (open_connections w) (session_state w))
    end.
Proof.
  destruct w as [[[ss|] [ms|] ro] n st]; unfold_sqlite; simpl;
    try reflexivity; destruct ro; reflexivity.
Qed.

(** Calling again an operation whose effect on the file depends on the file
    alone and is a fixed point after one call. *)
Section Idempotent.
Context {S R U : Type}.
Variable init : M (world S R U) unit.

Hypothesis init_determined : forall w1 w2,
    disk w1 = disk w2 ->
    disk (snd (init w1)) = disk (snd (init w2)) /\ fst (init w1) = fst (init w2).
Hypothesis init_settled : forall w,
    disk (snd (init (snd (init w)))) = disk (snd (init w))
    /\ fst (init (snd (init w))) = fst (init w).

Lemma times_disk (n : nat) (w : world S R U) :
  disk (times (Datatypes.S n) init w) = disk (snd (init w)).
Proof.
  induction n as [|n IH].
  - reflexivity.
  - change (times (Datatypes.S (Datatypes.S n)) init w)
      with (snd (init (times (Datatypes.S n) init w))).
    destruct (init_determined _ _ IH) as [Hd _]. rewrite Hd.
    apply init_settled.
Qed.

Lemma times_outcome (n : nat) (w : world S R U) :
  fst (init (times n init w)) = fst (init w).
Proof.
  destruct n as [|n].
  - reflexivity.
  - destruct (init_determined _ _ (times_disk n w)) as [_ Hr]. rewrite Hr.
    apply init_settled.
Qed.

End Idempotent.

Lemma copilot_init_db_determined (w1 w2 : Copilot.W) :
  disk w1 = disk w2 ->
  disk (snd (Copilot.init_db w1)) = disk (snd (Copilot.init_db w2))
  /\ fst (Copilot.init_db w1) = fst (Copilot.init_db w2).
Proof.
  intros H. rewrite !copilot_init_db_eval, <- H.
  destruct (sessions_table (disk w1)), (messages_table (disk w1)),
    (readonly (disk w1)); simpl; auto.
Qed.

Lemma copilot_init_db_settled (w : Copilot.W) :
  disk (snd (Copilot.init_db (snd (Copilot.init_db w))))
  = disk (snd (Copilot.init_db w))
  /\ fst (Copilot.init_db (snd (Copilot.init_db w))) = fst (Copilot.init_db w).
Proof.
  rewrite (copilot_init_db_eval (snd _)), copilot_init_db_eval.
  destruct w as [[[ss|] [ms|] [|]] n st]; simpl; auto.
Qed.

Lemma sqlite_init_db_determined (w1 w2 : Sqlite.W) :
  disk w1 = disk w2 ->
  disk (snd (Sqlite.init_db w1)) = disk (snd (Sqlite.init_db w2))
  /\ fst (Sqlite.init_db w1) = fst (Sqlite.init_db w2).
Proof.
  intros H. rewrite !sqlite_init_db_eval. unfold left_open. rewrite <- H.
  destruct (sessions_table (disk w1)), (messages_table (disk w1)),
    (readonly (disk w1)); simpl; auto.
Qed.

Lemma sqlite_init_db_settled (w : Sqlite.W) :
  disk (snd (Sqlite.init_db (snd (Sqlite.init_db w))))
  = disk (snd (Sqlite.init_db w))
  /\ fst (Sqlite.init_db (snd (Sqlite.init_db w))) = fst (Sqlite.init_db w).
Proof.
  rewrite (sqlite_init_db_eval (snd _)), sqlite_init_db_eval.
  destruct w as [[[ss|] [ms|] [|]] n st]; simpl; auto.
Qed.

(** C5: in both variants, for every starting store and every [N >= 1], the
    file after [N] calls of [init_db] is the file after one call; every
    further call has the outcome of the first, which on a writable file is
    success; and a table that was there keeps exactly its rows. *)
Theorem init_db_idempotent (N : nat) :
  (1 <= N)%nat ->
  (forall w : Copilot.W,
      disk (times N Copilot.init_db w) = disk (snd (Copilot.init_db w))
      /\ fst (Copilot.init_db (times N Copilot.init_db w)) = fst (Copilot.init_db w)
      /\ (readonly (disk w) = false -> fst (Copilot.init_db w) = Ok tt)
      /\ (forall ss, sessions_table (disk w) = Some ss ->
                     sessions_table (disk (times N Copilot.init_db w)) = Some ss)
      /\ (forall ms, messages_table (disk w) = Some ms ->
                     messages_table (disk (times N Copilot.init_db w)) = Some ms))
  /\
  (forall w : Sqlite.W,
      disk (times N Sqlite.init_db w) = disk (snd (Sqlite.init_db w))
      /\ fst (Sqlite.init_db (times N Sqlite.init_db w)) = fst (Sqlite.init_db w)
      /\ (readonly (disk w) = false -> fst (Sqlite.init_db w) = Ok tt)
      /\ (forall ss, sessions_table (disk w) = Some ss ->
                     sessions_table (disk (times N Sqlite.init_db w)) = Some ss)
      /\ (forall ms, messages_table (disk w) = Some ms ->
                     messages_table (disk (times N Sqlite.init_db w)) = Some ms)).
Proof.
  intros HN. destruct N as [|n]; [lia|]. split; intros w.
  - assert (Hd : disk (times (Datatypes.S n) Copilot.init_db w)
                 = disk (snd (Copilot.init_db w)))
      by apply (times_disk Copilot.init_db copilot_init_db_determined
                           copilot_init_db_settled n w).
    split; [exact Hd|]. split.
    { apply times_outcome;
        [apply copilot_init_db_determined | apply copilot_init_db_settled]. }
    rewrite Hd, copilot_init_db_eval.
    destruct w as [[[ss|] [ms|] [|]] k st]; simpl;
      repeat split; intros; congruence.
  - assert (Hd : disk (times (Datatypes.S n) Sqlite.init_db w)
                 = disk (snd (Sqlite.init_db w)))
      by apply (times_disk Sqlite.init_db sqlite_init_db_determined
                           sqlite_init_db_settled n w).
    split; [exact Hd|]. split.
    { apply times_outcome;
        [apply sqlite_init_db_determined | apply sqlite_init_db_settled]. }
    rewrite Hd, sqlite_init_db_eval.
    destruct w as [[[ss|] [ms|] [|]] k st]; simpl;
      repeat split; intros; congruence.
Qed.

(** ** Listing sessions *)

Lemma StronglySorted_map {A B} (f : A -> B) (P : B -> B -> Prop) (l : list A) :
  StronglySorted (fun a b => P (f a) (f b)) l -> StronglySorted P (map f l).
Proof.
  induction 1 as [|x l Hl IH Hx]; simpl; constructor.
  - exact IH.
  - apply Forall_map. exact Hx.
Qed.

Lemma NoDup_map_unique {A B} (f : A -> B) (l : list A) (a b : A) :
  NoDup (map f l) -> In a l -> In b l -> f a = f b -> a = b.
Proof.
  induction l as [|x l IH]; simpl; intros Hnd Ha Hb Hab.
  - contradiction.
  - inversion Hnd as [|y l' Hx Hl]; subst.
    destruct Ha as [Ha|Ha], Hb as [Hb|Hb]; subst.
    + reflexivity.
    + exfalso. apply Hx. rewrite Hab. apply in_map. exact Hb.
    + exfalso. apply Hx. rewrite <- Hab. apply in_map. exact Ha.
    + apply IH; assumption.
Qed.

Lemma NoDup_all_equal_length {A} (a : A) (l : list A) :
  NoDup l -> (forall x, In x l <-> x = a) -> List.length l = 1%nat.
Proof.
  intros Hnd Hl. destruct l as [|x [|y l]].
  - exfalso. apply (proj2 (Hl a) eq_refl).
  - reflexivity.
  - exfalso. inversion Hnd as [|x' l' Hx _]; subst.
    apply Hx. left.
    rewrite (proj1 (Hl x) (or_introl eq_refl)).
    apply (proj1 (Hl y)). right. left. reflexivity.
Qed.

(** The joined rows are those of the sessions that some message refers to. *)
Lemma join_rows_In (ss : list Sqlite.session) (ms : list Sqlite.message)
      (r : string * Z * Z) :
  In r (Sqlite.join_rows ss ms)
  <-> exists s, In s ss
                /\ r = (Sqlite.session_id s, Sqlite.created_at s, Sqlite.last_updated s)
                /\ exists m, In m ms /\ Sqlite.msg_session_id m = Sqlite.session_id s.
Proof.
  unfold Sqlite.join_rows. rewrite in_flat_map. split.
  - intros [s [Hs Hr]]. apply in_map_iff in Hr. destruct Hr as [m [Hr Hm]].
    apply filter_In in Hm. destruct Hm as [Hm He]. apply String.eqb_eq in He.
    exists s. split; [exact Hs|]. split; [symmetry; exact Hr|].
    exists m. split; [exact Hm | symmetry; exact He].
  - intros [s [Hs [Hr [m [Hm He]]]]]. exists s. split; [exact Hs|].
    apply in_map_iff. exists m. split; [symmetry; exact Hr|].
    apply filter_In. split; [exact Hm|]. apply String.eqb_eq. symmetry. exact He.
Qed.

Lemma listing_In (ss : list Sqlite.session) (ms : list Sqlite.message)
      (r : string * Z * Z) :
  In r (order_by (desc (fun r : string * Z * Z => snd r))
                 (nodup Sqlite.row_eq_dec (Sqlite.join_rows ss ms)))
  <-> In r (Sqlite.join_rows ss ms).
Proof.
  rewrite <- (nodup_In Sqlite.row_eq_dec (Sqlite.join_rows ss ms)).
  split; intros H.
  - exact (Permutation_in _ (order_by_perm _ _) H).
  - exact (Permutation_in _ (Permutation_sym (order_by_perm _ _)) H).
Qed.

Lemma listing_NoDup (ss : list Sqlite.session) (ms : list Sqlite.message) :
  NoDup (order_by (desc (fun r : string * Z * Z => snd r))
                  (nodup Sqlite.row_eq_dec (Sqlite.join_rows ss ms))).
Proof.
  eapply Permutation_NoDup;
    [apply Permutation_sym, order_by_perm | apply NoDup_nodup].
Qed.

(** C7: [get_sessions] of chatUI-Copilot returns the sessions table, projected
    on [(session_id, created_at)], sorted by [created_at] descending;
    [get_all_sessions] of chatUI-Sqlite returns the rows of the sessions that
    have a message, each row once, sorted by [last_updated] descending. *)
Theorem list_sessions_most_recent_first :
  (forall (w : Copilot.W) (ss : list Copilot.session),
      sessions_table (disk w) = Some ss ->
      exists rows,
        Copilot.get_sessions w = (Ok rows, w)
        /\ Permutation rows
             (map (fun s => (Copilot.session_id s, Copilot.created_at s)) ss)
        /\ StronglySorted (fun a b => snd b <= snd a) rows)
  /\
  (forall (w : Sqlite.W) (ss : list Sqlite.session) (ms : list Sqlite.message),
      sessions_table (disk w) = Some ss ->
      messages_table (disk w) = Some ms ->
      exists rows,
        Sqlite.get_all_sessions w = (Ok rows, w)
        /\ (forall r,
               In r rows
               <-> exists s, In s ss
                             /\ r = (Sqlite.session_id s, Sqlite.created_at s,
                                     Sqlite.last_updated s)
                             /\ exists m, In m ms
                                          /\ Sqlite.msg_session_id m
                                             = Sqlite.session_id s)
        /\ NoDup rows
        /\ StronglySorted (fun a b => snd b <= snd a) rows).
Proof.
  split.
  - intros w ss Hs. eexists. split; [apply copilot_get_sessions_eval, Hs|]. split.
    + apply Permutation_map, order_by_perm.
    + apply StronglySorted_map. simpl.
      apply (order_by_desc_sorted Copilot.created_at).
  - intros w ss ms Hs Hm. eexists.
    split; [apply (sqlite_get_all_sessions_eval w Hs Hm)|]. split; [|split].
    + intros r. rewrite listing_In. apply join_rows_In.
    + apply listing_NoDup.
    + apply (order_by_desc_sorted (fun r : string * Z * Z => snd r)).
Qed.

(** C10: [get_all_sessions] of chatUI-Sqlite, on a store whose session ids are
    unique (they are the primary key), lists exactly the sessions that have at
    least one message, each once whatever the number of its messages; with two
    sessions of which only the second has messages the listing has one
    entry. *)
Theorem get_all_sessions_only_with_messages
        (w : Sqlite.W) (ss : list Sqlite.session) (ms : list Sqlite.message) :
  sessions_table (disk w) = Some ss ->
  messages_table (disk w) = Some ms ->
  NoDup (map Sqlite.session_id ss) ->
  exists rows,
    Sqlite.get_all_sessions w = (Ok rows, w)
    /\ (forall r,
           In r rows
           <-> exists s, In s ss
                         /\ r = (Sqlite.session_id s, Sqlite.created_at s,
                                 Sqlite.last_updated s)
                         /\ exists m, In m ms
                                      /\ Sqlite.msg_session_id m = Sqlite.session_id s)
    /\ NoDup rows
    /\ NoDup (map (fun r : string * Z * Z => fst (fst r)) rows)
    /\ (forall s1 s2,
           ss = [s1; s2] ->
           ms <> [] ->
           (forall m, In m ms -> Sqlite.msg_session_id m = Sqlite.session_id s2) ->
           List.length rows = 1%nat).
Proof.
  intros Hs Hm Hpk. eexists.
  split; [apply (sqlite_get_all_sessions_eval w Hs Hm)|].
  assert (Hin : forall r,
             In r (order_by (desc (fun r : string * Z * Z => snd r))
                            (nodup Sqlite.row_eq_dec (Sqlite.join_rows ss ms)))
             <-> exists s, In s ss
                           /\ r = (Sqlite.session_id s, Sqlite.created_at s,
                                   Sqlite.last_updated s)
                           /\ exists m, In m ms
                                        /\ Sqlite.msg_session_id m = Sqlite.session_id s).
  { intros r. rewrite listing_In. apply join_rows_In. }
  split; [exact Hin|]. split; [apply listing_NoDup|]. split.
  - apply NoDup_map_NoDup_ForallPairs; [|apply listing_NoDup].
    intros r1 r2 H1 H2 Heq.
    apply Hin in H1. destruct H1 as [a [Ha [E1 _]]].
    apply Hin in H2. destruct H2 as [b [Hb [E2 _]]].
    subst r1 r2. simpl in Heq.
    rewrite (NoDup_map_unique Sqlite.session_id ss a b Hpk Ha Hb Heq).
    reflexivity.
  - intros s1 s2 Hss Hne Hall. subst ss.
    apply NoDup_all_equal_length
      with (a := (Sqlite.session_id s2, Sqlite.created_at s2, Sqlite.last_updated s2));
      [apply listing_NoDup|].
    intros r. rewrite Hin. split.
    + intros [s [Hin_s [Hr [m [Hm' He]]]]].
      rewrite (Hall m Hm') in He.
      assert (Hs2 : In s2 [s1; s2]) by (right; left; reflexivity).
      rewrite (NoDup_map_unique Sqlite.session_id [s1; s2] s2 s Hpk Hs2 Hin_s He).
      exact Hr.
    + intros Hr. exists s2. split; [right; left; reflexivity|].
      split; [exact Hr|].
      destruct ms as [|m ms']; [contradiction Hne; reflexivity|].
      exists m. split; [left; reflexivity | apply Hall; left; reflexivity].
Qed.

(** ** Referential integrity *)

(** On every new connection the foreign-key pragma is off, and neither script
    switches it on before it inserts. *)
Lemma connect_foreign_keys_off {S R U} (w : world S R U) :
  fst (connect w) = Ok (Connection (disk w) false false).
Proof. reflexivity. Qed.

(** On a writable store that has its tables, [save_message] succeeds for
    every session id, referenced or not. *)
Lemma save_message_never_checks_session :
  (forall sid user_msg llm_resp now (w : Copilot.W) ms,
      messages_table (disk w) = Some ms -> readonly (disk w) = false ->
      fst (Copilot.save_message sid user_msg llm_resp now w) = Ok tt)
  /\
  (forall sid role_ content_ now (w : Sqlite.W) ss ms,
      sessions_table (disk w) = Some ss ->
      messages_table (disk w) = Some ms -> readonly (disk w) = false ->
      fst (Sqlite.save_message sid role_ content_ now w) = Ok tt).
Proof.
  split; intros.
  - rewrite copilot_save_message_eval, H, H0. reflexivity.
  - rewrite sqlite_save_message_eval, H, H0, H1. reflexivity.
Qed.

(** C1 (fails on the code): on a freshly initialized store, which has no
    session at all, [save_message "ghost" ...] returns normally in both
    variants and the committed messages table then holds a row whose
    [session_id] references no session. *)
Theorem save_message_orphan_row :
  (let w := snd (Copilot.init_db copilot_new_file) in
   sessions_table (disk w) = Some []
   /\ Copilot.save_message "ghost" "hi" "hello" 5 w
      = (Ok tt,
         World (Database (Some [])
                         (Some [Copilot.Message 1 "ghost" "hi" "hello" 5]) false)
               0%nat "s1"))
  /\
  (let w := snd (Sqlite.init_db sqlite_new_file) in
   sessions_table (disk w) = Some []
   /\ Sqlite.save_message "ghost" "user" "hi" 5 w
      = (Ok tt,
         World (Database (Some [])
                         (Some [Sqlite.Message 1 "ghost" "user" "hi" 5]) false)
               0%nat (Sqlite.State "s1" []))).
Proof. repeat split. Qed.

(** ** Connections *)

(** In chatUI-Copilot every operation leaves as many connections open as it
    found, on every exit path. *)
Lemma copilot_send_message_world (gw : Copilot.gateway) (text : string)
      (w : Copilot.W) :
  snd (Copilot.send_message gw text w) = w.
Proof.
  unfold Copilot.send_message.
  destruct (gw (disk w) (session_state w) text) as [|ok [|[output|]]]; reflexivity.
Qed.

Lemma copilot_save_message_connections sid user_msg llm_resp now (w : Copilot.W) :
  open_connections (snd (Copilot.save_message sid user_msg llm_resp now w))
  = open_connections w.
Proof.
  rewrite copilot_save_message_eval.
  destruct (messages_table (disk w)); [destruct (readonly (disk w))|]; reflexivity.
Qed.

Lemma copilot_connections_released (o : Copilot.operation) (w : Copilot.W) :
  open_connections (Copilot.run o w) = open_connections w.
Proof.
  destruct o; simpl.
  - rewrite copilot_init_db_eval.
    destruct (sessions_table (disk w)), (messages_table (disk w)),
      (readonly (disk w)); reflexivity.
  - apply copilot_save_message_connections.
  - destruct w as [[[ss|] ms ro] n st]; reflexivity.
  - destruct w as [[ss [ms|] ro] n st]; reflexivity.
  - destruct w as [[[ss|] ms [|]] n st]; unfold_copilot; simpl; try reflexivity.
    destruct (existsb _ ss); reflexivity.
  - unfold Copilot.retry, bind, get_state.
    pose proof (copilot_send_message_world gw user_msg w) as Hw.
    destruct (Copilot.send_message gw user_msg w) as [[reply|e] w'];
      simpl in Hw; subst w'; simpl.
    + apply copilot_save_message_connections.
    + reflexivity.
  - unfold Copilot.chat_input. destruct (String.eqb prompt ""); [reflexivity|].
    unfold bind, get_state.
    pose proof (copilot_send_message_world gw prompt w) as Hw.
    destruct (Copilot.send_message gw prompt w) as [[reply|e] w'];
      simpl in Hw; subst w'; simpl.
    + apply copilot_save_message_connections.
    + reflexivity.
Qed.

(** When [save_message] of chatUI-Sqlite returns normally it has closed its
    connection. *)
Lemma sqlite_save_message_released_on_return sid role_ content_ now (w : Sqlite.W) :
  fst (Sqlite.save_message sid role_ content_ now w) = Ok tt ->
  open_connections (snd (Sqlite.save_message sid role_ content_ now w))
  = open_connections w.
Proof.
  rewrite sqlite_save_message_eval.
  destruct (messages_table (disk w)); [|discriminate].
  destruct (readonly (disk w)); [discriminate|].
  destruct (sessions_table (disk w)); [reflexivity | discriminate].
Qed.

(** C9 (fails on the code): on a store that has its tables but cannot be
    written, [save_message] of chatUI-Sqlite raises from its [INSERT] and
    returns with the connection it opened still open; the same call in
    chatUI-Copilot raises with the connection closed. *)
Theorem sqlite_save_message_leaves_connection_open :
  open_connections sqlite_store_readonly = 0%nat
  /\ Sqlite.save_message "s2" "user" "more" 60 sqlite_store_readonly
     = (Raise (OperationalError "attempt to write a readonly database"),
        World (disk sqlite_store_readonly) 1%nat
              (session_state sqlite_store_readonly))
  /\ (forall w : Copilot.W,
         open_connections (snd (Copilot.save_message "s2" "more" "reply" 60 w))
         = open_connections w).
Proof.
  split; [reflexivity|]. split; [reflexivity|].
  intros w. apply copilot_save_message_connections.
Qed.

(** ** Sending a message *)

Lemma sqlite_send_message_world (gw : Sqlite.gateway) (text : string)
      (w : Sqlite.W) :
  snd (Sqlite.send_message gw text w) = w.
Proof.
  unfold Sqlite.send_message.
  destruct (gw (disk w) (Sqlite.current_session (session_state w)) text)
    as [|[|] [|[output|]]]; reflexivity.
Qed.

(** C2 as stated fails in chatUI-Copilot: with the webhook out of reach the
    handler raises and the store is as it was, so the text the user sent is
    not the last recorded turn; it is recorded nowhere. *)
Lemma copilot_chat_input_loses_user_message :
  let r := Copilot.chat_input copilot_gateway_down "are you there" 60 copilot_store in
  fst r = Raise RequestException
  /\ disk (snd r) = disk copilot_store
  /\ ~ (exists ms m,
           messages_table (disk (snd r)) = Some (ms ++ [m])
           /\ Copilot.user_message m = "are you there").
Proof.
  split; [reflexivity|]. split; [reflexivity|].
  intros [ms [m [Hms Hm]]]. simpl in Hms.
  injection Hms as Hms.
  change [Copilot.Message 1 "s1" "ping" "pong" 30;
          Copilot.Message 2 "s2" "hello" "hi there" 40;
          Copilot.Message 3 "s1" "again" "sure" 50]
    with ([Copilot.Message 1 "s1" "ping" "pong" 30;
           Copilot.Message 2 "s2" "hello" "hi there" 40]
            ++ [Copilot.Message 3 "s1" "again" "sure" 50]) in Hms.
  apply app_inj_tail in Hms. destruct Hms as [_ Hlast].
  subst m. discriminate Hm.
Qed.

(** C2, amended.  chatUI-Sqlite: for a non-empty text on a writable store that
    has its tables, the webhook is called on a file in which the user row is
    already committed; a non-empty reply is then committed as the next row;
    if the call fails the file stays as it was at the call, the user row
    last.  chatUI-Copilot: the webhook is called on the file as it was; a
    reply that comes with a success status is committed together with the
    text as one row; if the webhook cannot be reached, or its body is not
    JSON or has no output, nothing is written.  What chatUI-Copilot does with
    an output that comes with an error status is not part of the statement. *)
Theorem chat_input_persistence :
  (forall (gw : Sqlite.gateway) (prompt : string) (t_user t_reply : Z)
          (w : Sqlite.W) (ss : list Sqlite.session) (ms : list Sqlite.message),
      prompt <> "" ->
      sessions_table (disk w) = Some ss ->
      messages_table (disk w) = Some ms ->
      readonly (disk w) = false ->
      let sid := Sqlite.current_session (session_state w) in
      let user_row := Sqlite.Message (next_rowid Sqlite.id ms) sid "user" prompt t_user in
      let at_call :=
        Database (Some (map (fun s => if String.eqb (Sqlite.session_id s) sid
                                      then Sqlite.Session (Sqlite.session_id s)
                                                          (Sqlite.created_at s) t_user
                                      else s) ss))
                 (Some (ms ++ [user_row])) false in
      let after := disk (snd (Sqlite.chat_input gw prompt t_user t_reply w)) in
      match gw at_call sid prompt with
      | Response true (Json (Some reply)) =>
          reply <> "" ->
          messages_table after
          = Some (ms ++ [user_row;
                         Sqlite.Message (next_rowid Sqlite.id (ms ++ [user_row]))
                                        sid "assistant" reply t_reply])
      | _ => after = at_call
      end)
  /\
  (forall (gw : Copilot.gateway) (prompt : string) (now : Z)
          (w : Copilot.W) (ms : list Copilot.message),
      prompt <> "" ->
      messages_table (disk w) = Some ms ->
      readonly (disk w) = false ->
      let after := disk (snd (Copilot.chat_input gw prompt now w)) in
      match gw (disk w) (session_state w) prompt with
      | Response status_ok (Json (Some reply)) =>
          status_ok = true ->
          messages_table after
          = Some (ms ++ [Copilot.Message (next_rowid Copilot.id ms)
                                         (session_state w) prompt reply now])
      | _ => after = disk w
      end).
Proof.
  split.
  - intros gw prompt t_user t_reply [[ss' ms' ro] n [sid shown]] ss ms
           Hp Hs Hm Hro; simpl in Hs, Hm, Hro; subst.
    apply String.eqb_neq in Hp.
    unfold Sqlite.chat_input. rewrite Hp.
    unfold Sqlite.append_shown, bind, get_state, put_state; simpl.
    unfold Sqlite.send_message; simpl.
    destruct (gw _ sid prompt) as [|[|] [|[reply|]]]; simpl; try reflexivity.
    intros Hr. apply String.eqb_neq in Hr. rewrite Hr; simpl.
    rewrite <- app_assoc. reflexivity.
  - intros gw prompt now [[ss' ms' ro] n sid] ms Hp Hm Hro;
      simpl in Hm, Hro; subst.
    apply String.eqb_neq in Hp.
    unfold Copilot.chat_input. rewrite Hp.
    unfold bind, get_state, Copilot.send_message; simpl.
    destruct (gw _ sid prompt) as [|ok [|[reply|]]]; simpl;
      try intros _; reflexivity.
Qed.

(** [send_message] of chatUI-Copilot has no [raise_for_status], which its
    sibling has: an output that comes with an error status is returned, and
    the chat input handler stores it as the reply. *)
Lemma copilot_chat_input_stores_error_status_output
      (gw : Copilot.gateway) (prompt reply : string) (now : Z)
      (w : Copilot.W) (ms : list Copilot.message) :
  prompt <> "" ->
  messages_table (disk w) = Some ms ->
  readonly (disk w) = false ->
  gw (disk w) (session_state w) prompt = Response false (Json (Some reply)) ->
  messages_table (disk (snd (Copilot.chat_input gw prompt now w)))
  = Some (ms ++ [Copilot.Message (next_rowid Copilot.id ms)
                                 (session_state w) prompt reply now]).
Proof.
  intros Hp Hm Hro Hgw. apply String.eqb_neq in Hp.
  unfold Copilot.chat_input. rewrite Hp.
  unfold bind, get_state, Copilot.send_message. rewrite Hgw. simpl.
  rewrite copilot_save_message_eval, Hm, Hro. reflexivity.
Qed.

(** ** The sidebar preview *)

Lemma for_each_pure {W A B} (f : A -> M W B) (g : A -> B) (w : W) (l : list A) :
  (forall a, f a w = (Ok (g a), w)) ->
  for_each f l w = (Ok (map g l), w).
Proof.
  intros Hf. induction l as [|a l IH]; simpl.
  - reflexivity.
  - unfold bind. rewrite Hf. fold (for_each f l). rewrite IH. reflexivity.
Qed.

Lemma Forall2_map_right {A B} (P : A -> B -> Prop) (g : A -> B) (l : list A) :
  (forall a, P a (g a)) -> Forall2 P l (map g l).
Proof.
  intros H. induction l; simpl; constructor; auto.
Qed.

(** The head of the rows selected by [WHERE session_id = ? AND role = 'user'
    ORDER BY timestamp LIMIT 1] is the first user-authored message. *)
Lemma user_rows_first (ms : list Sqlite.message) (sid : string) :
  first_user_message ms sid
    match Sqlite.user_rows sid ms with
    | m :: _ => Sqlite.content m
    | [] => ""
    end.
Proof.
  unfold first_user_message, Sqlite.user_rows.
  set (p := fun m => String.eqb (Sqlite.msg_session_id m) sid
                     && String.eqb (Sqlite.role m) "user").
  assert (Hp : forall m, p m = true
                         <-> Sqlite.msg_session_id m = sid /\ Sqlite.role m = "user").
  { intros m. unfold p. rewrite andb_true_iff, !String.eqb_eq. tauto. }
  pose proof (order_by_perm (asc Sqlite.timestamp) (filter p ms)) as Hperm.
  pose proof (order_by_asc_sorted Sqlite.timestamp (filter p ms)) as Hsorted.
  destruct (order_by (asc Sqlite.timestamp) (filter p ms)) as [|m rest].
  - left. split; [reflexivity|]. intros m Hm Hsel.
    apply Hp in Hsel.
    assert (Hin : In m (filter p ms)) by (apply filter_In; auto).
    apply (Permutation_in _ (Permutation_sym Hperm)) in Hin. exact Hin.
  - right. exists m.
    assert (Hm : In m (filter p ms))
      by (apply (Permutation_in _ Hperm); left; reflexivity).
    apply filter_In in Hm. destruct Hm as [Hin Hsel]. apply Hp in Hsel.
    destruct Hsel as [Hsid Hrole].
    repeat (split; [assumption || reflexivity|]).
    intros m' Hin' Hsid' Hrole'.
    assert (Hm' : In m' (m :: rest)).
    { apply (Permutation_in _ (Permutation_sym Hperm)).
      apply filter_In. split; [exact Hin'|]. apply Hp. auto. }
    inversion Hsorted as [|x l _ Hall]; subst.
    destruct Hm' as [->|Hm']; [lia|].
    rewrite Forall_forall in Hall. apply Hall. exact Hm'.
Qed.

Lemma display_text_short (text : string) :
  (String.length text <= 27)%nat -> Sqlite.display_text text = text.
Proof.
  intros H. unfold Sqlite.display_text.
  destruct (27 <? String.length text)%nat eqn:E; [|reflexivity].
  apply Nat.ltb_lt in E. lia.
Qed.

Lemma display_text_long (text : string) :
  (27 < String.length text)%nat ->
  Sqlite.display_text text = String.append (substring 0 24 text) "...".
Proof.
  intros H. unfold Sqlite.display_text.
  apply Nat.ltb_lt in H. rewrite H. reflexivity.
Qed.

Lemma sqlite_sidebar_eval (w : Sqlite.W) (ss : list Sqlite.session)
      (ms : list Sqlite.message) :
  sessions_table (disk w) = Some ss ->
  messages_table (disk w) = Some ms ->
  Sqlite.sidebar w
  = (Ok (map (fun r : string * Z * Z =>
                (Sqlite.display_text
                   match Sqlite.user_rows (fst (fst r)) ms with
                   | m :: _ => Sqlite.content m
                   | [] => ""
                   end,
                 fst (fst r)))
             (order_by (desc (fun r : string * Z * Z => snd r))
                       (nodup Sqlite.row_eq_dec (Sqlite.join_rows ss ms)))), w).
Proof.
  intros Hs Hm. unfold Sqlite.sidebar, bind.
  rewrite (sqlite_get_all_sessions_eval w Hs Hm).
  apply for_each_pure. intros r.
  rewrite (sqlite_get_first_user_message_eval (fst (fst r)) w Hm).
  reflexivity.
Qed.

(** C6 as stated fails: a first user message of 25 characters is shown whole,
    not cut to 24 characters and an ellipsis. *)
Lemma sidebar_preview_of_25_characters :
  Sqlite.sidebar sqlite_store_25
  = (Ok [("abcdefghijklmnopqrstuvwxy", "s1")], sqlite_store_25)
  /\ String.length "abcdefghijklmnopqrstuvwxy" = 25%nat
  /\ "abcdefghijklmnopqrstuvwxy"
     <> String.append (substring 0 24 "abcdefghijklmnopqrstuvwxy") "...".
Proof.
  split; [reflexivity|]. split; [reflexivity|]. discriminate.
Qed.

(** C6, amended: on a store that has its tables, the sidebar has one entry per
    listed session, keyed by the session id, whose text is the first
    user-authored message of the session when that has at most 27 characters
    and its first 24 characters followed by ["..."] when it has more; the
    text is empty for a session without user-authored message. *)
Theorem sidebar_preview (w : Sqlite.W) (ss : list Sqlite.session)
        (ms : list Sqlite.message) :
  sessions_table (disk w) = Some ss ->
  messages_table (disk w) = Some ms ->
  exists sessions entries,
    Sqlite.get_all_sessions w = (Ok sessions, w)
    /\ Sqlite.sidebar w = (Ok entries, w)
    /\ Forall2
         (fun (r : string * Z * Z) (e : string * string) =>
            snd e = fst (fst r)
            /\ exists text,
                first_user_message ms (fst (fst r)) text
                /\ ((String.length text <= 27)%nat -> fst e = text)
                /\ ((27 < String.length text)%nat ->
                    fst e = String.append (substring 0 24 text) "...")
                /\ (text = "" -> fst e = ""))
         sessions entries.
Proof.
  intros Hs Hm. eexists. eexists.
  split; [exact (sqlite_get_all_sessions_eval w Hs Hm)|].
  split; [exact (sqlite_sidebar_eval w Hs Hm)|].
  apply Forall2_map_right. intros r. simpl. split; [reflexivity|].
  eexists. split; [apply user_rows_first|].
  split; [apply display_text_short|]. split; [apply display_text_long|].
  intros E. rewrite E. reflexivity.
Qed.

(** ** The primary key of the sessions table *)

Lemma sqlite_create_new_session_eval (fresh : string) (now : Z) (w : Sqlite.W) :
  Sqlite.create_new_session fresh now w
  = match sessions_table (disk w) with
    | None => (Raise (no_such_table "chat_sessions"), left_open w)
    | Some ss =>
        if readonly (disk w) then (Raise readonly_database, left_open w)
        else if existsb (fun s => String.eqb (Sqlite.session_id s) fresh) ss
        then (Raise (IntegrityError "UNIQUE constraint failed"), left_open w)
        else (Ok fresh,
              World (Database (Some (ss ++ [Sqlite.Session fresh now now]))
                              (messages_table (disk w)) false)
                    (open_connections w) (session_state w))
    end.
Proof.
  destruct w as [[[ss|] ms [|]] n st]; unfold_sqlite; simpl; try reflexivity.
  destruct (existsb _ ss); reflexivity.
Qed.

Lemma NoDup_map_snoc {A} (key : A -> string) (l : list A) (x : A) :
  NoDup (map key l) ->
  existsb (fun a => String.eqb (key a) (key x)) l = false ->
  NoDup (map key (l ++ [x])).
Proof.
  intros Hnd Hfresh. rewrite map_app. simpl.
  apply (Permutation_NoDup (Permutation_cons_append (map key l) (key x))).
  constructor; [|exact Hnd].
  intros Hin. apply in_map_iff in Hin. destruct Hin as [a [Ha Hin]].
  assert (Ht : existsb (fun a => String.eqb (key a) (key x)) l = true).
  { apply existsb_exists. exists a. split; [exact Hin|].
    apply String.eqb_eq. exact Ha. }
  congruence.
Qed.

Lemma sqlite_save_message_ids sid role_ content_ now (w : Sqlite.W) :
  map Sqlite.session_id
      (rows_of (sessions_table
                  (disk (snd (Sqlite.save_message sid role_ content_ now w)))))
  = map Sqlite.session_id (rows_of (sessions_table (disk w))).
Proof.
  rewrite sqlite_save_message_eval.
  destruct (messages_table (disk w)); [|reflexivity].
  destruct (readonly (disk w)); [reflexivity|].
  destruct (sessions_table (disk w)) as [ss|] eqn:Hs;
    [|simpl; rewrite Hs; reflexivity].
  simpl. rewrite map_map. apply map_ext.
  intros s. destruct (String.eqb (Sqlite.session_id s) sid); reflexivity.
Qed.

Lemma sqlite_sidebar_disk (w : Sqlite.W) :
  disk (snd (Sqlite.sidebar w)) = disk w.
Proof.
  destruct (sessions_table (disk w)) as [ss|] eqn:Hs;
    [destruct (messages_table (disk w)) as [ms|] eqn:Hm|].
  - rewrite (sqlite_sidebar_eval w Hs Hm). reflexivity.
  - destruct w as [d n st]; simpl in *.
    unfold Sqlite.sidebar, bind. unfold_sqlite; simpl. rewrite Hs; simpl.
    rewrite Hm. reflexivity.
  - destruct w as [d n st]; simpl in *.
    unfold Sqlite.sidebar, bind. unfold_sqlite; simpl. rewrite Hs. reflexivity.
Qed.

(** No operation of chatUI-Sqlite gives two session rows the same id. *)
Lemma sqlite_session_ids_stay_unique (o : Sqlite.operation) (w : Sqlite.W) :
  NoDup (map Sqlite.session_id (rows_of (sessions_table (disk w)))) ->
  NoDup (map Sqlite.session_id (rows_of (sessions_table (disk (Sqlite.run o w))))).
Proof.
  intros Hnd. destruct o; simpl.
  - rewrite sqlite_init_db_eval.
    destruct w as [[[ss|] [ms|] [|]] n st]; exact Hnd.
  - rewrite sqlite_save_message_ids. exact Hnd.
  - rewrite sqlite_create_new_session_eval.
    destruct w as [[[ss|] ms [|]] n st]; simpl in *; try exact Hnd.
    destruct (existsb _ ss) eqn:E; [exact Hnd|].
    simpl. apply (NoDup_map_snoc Sqlite.session_id ss _ Hnd). exact E.
  - destruct w as [[ss [ms|] ro] n st]; exact Hnd.
  - destruct w as [[ss [ms|] ro] n st]; exact Hnd.
  - destruct w as [[[ss|] [ms|] ro] n st]; exact Hnd.
  - rewrite sqlite_sidebar_disk. exact Hnd.
  - unfold Sqlite.chat_input.
    destruct (String.eqb prompt ""); [exact Hnd|].
    unfold Sqlite.append_shown, bind, get_state, put_state. simpl.
    set (w1 := World (disk w) (open_connections w) _).
    pose proof (sqlite_save_message_ids
                  (Sqlite.current_session (session_state w)) "user" prompt
                  t_user w1) as He1.
    destruct (Sqlite.save_message _ "user" prompt t_user w1) as [[[]|e] w2];
      simpl in He1; [|simpl; rewrite He1; exact Hnd].
    pose proof (sqlite_send_message_world gw prompt w2) as Hw.
    destruct (Sqlite.send_message gw prompt w2) as [[[reply|]|e] w3];
      simpl in Hw; subst w3; simpl; try (rewrite He1; exact Hnd).
    destruct (String.eqb reply ""); simpl; [rewrite He1; exact Hnd|].
    set (w4 := World (disk w2) (open_connections w2) _).
    pose proof (sqlite_save_message_ids
                  (Sqlite.current_session (session_state w2)) "assistant" reply
                  t_reply w4) as He2.
    simpl in He2 |- *. rewrite He2, He1. exact Hnd.
Qed.

(** ** Append-only history *)

Lemma copilot_save_message_appends sid user_msg llm_resp now (w : Copilot.W) ms :
  messages_table (disk w) = Some ms ->
  exists extra,
    messages_table (disk (snd (Copilot.save_message sid user_msg llm_resp now w)))
    = Some (ms ++ extra).
Proof.
  intros Hm. rewrite copilot_save_message_eval, Hm.
  destruct (readonly (disk w)); simpl; rewrite ?Hm; appended.
Qed.

Lemma sqlite_save_message_appends sid role_ content_ now (w : Sqlite.W) ms :
  messages_table (disk w) = Some ms ->
  exists extra,
    messages_table (disk (snd (Sqlite.save_message sid role_ content_ now w)))
    = Some (ms ++ extra).
Proof.
  intros Hm. rewrite sqlite_save_message_eval, Hm.
  destruct (readonly (disk w)); simpl; rewrite ?Hm; try appended.
  destruct (sessions_table (disk w)); simpl; rewrite ?Hm; appended.
Qed.

Lemma copilot_history_grows (o : Copilot.operation) (w : Copilot.W) ms :
  messages_table (disk w) = Some ms ->
  exists extra, messages_table (disk (Copilot.run o w)) = Some (ms ++ extra).
Proof.
  intros Hm. destruct o; simpl.
  - rewrite copilot_init_db_eval, Hm.
    destruct (sessions_table (disk w)), (readonly (disk w));
      simpl; rewrite ?Hm; appended.
  - apply copilot_save_message_appends, Hm.
  - destruct w as [[[ss|] ms' ro] n st]; simpl in *; subst; appended.
  - rewrite (copilot_get_session_messages_eval sid w Hm). simpl.
    rewrite Hm. appended.
  - destruct w as [[[ss|] ms' [|]] n st]; simpl in *; subst;
      unfold_copilot; simpl; try appended.
    destruct (existsb _ ss); simpl; appended.
  - unfold Copilot.retry, bind, get_state.
    pose proof (copilot_send_message_world gw user_msg w) as Hw.
    destruct (Copilot.send_message gw user_msg w) as [[reply|e] w'];
      simpl in Hw; subst w'; simpl.
    + apply copilot_save_message_appends, Hm.
    + rewrite Hm. appended.
  - unfold Copilot.chat_input.
    destruct (String.eqb prompt ""); [simpl; rewrite Hm; appended|].
    unfold bind, get_state.
    pose proof (copilot_send_message_world gw prompt w) as Hw.
    destruct (Copilot.send_message gw prompt w) as [[reply|e] w'];
      simpl in Hw; subst w'; simpl.
    + apply copilot_save_message_appends, Hm.
    + rewrite Hm. appended.
Qed.

Lemma sqlite_history_grows (o : Sqlite.operation) (w : Sqlite.W) ms :
  messages_table (disk w) = Some ms ->
  exists extra, messages_table (disk (Sqlite.run o w)) = Some (ms ++ extra).
Proof.
  intros Hm. destruct o; simpl.
  - rewrite sqlite_init_db_eval, Hm.
    destruct (sessions_table (disk w)), (readonly (disk w));
      simpl; rewrite ?Hm; appended.
  - apply sqlite_save_message_appends, Hm.
  - destruct w as [[[ss|] ms' [|]] n st]; simpl in *; subst;
      unfold_sqlite; simpl; try appended.
    destruct (existsb _ ss); simpl; appended.
  - rewrite (sqlite_get_session_messages_eval sid w Hm). simpl.
    rewrite Hm. appended.
  - rewrite (sqlite_get_first_user_message_eval sid w Hm). simpl.
    rewrite Hm. appended.
  - destruct w as [[[ss|] ms' ro] n st]; simpl in *; subst; appended.
  - rewrite sqlite_sidebar_disk, Hm. appended.
  - unfold Sqlite.chat_input.
    destruct (String.eqb prompt ""); [simpl; rewrite Hm; appended|].
    unfold Sqlite.append_shown, bind, get_state, put_state. simpl.
    set (w1 := World (disk w) (open_connections w) _).
    assert (Hm1 : messages_table (disk w1) = Some ms) by exact Hm.
    destruct (sqlite_save_message_appends
                (Sqlite.current_session (session_state w)) "user" prompt
                t_user w1 Hm1) as [e1 He1].
    destruct (Sqlite.save_message _ "user" prompt t_user w1) as [[[]|e] w2];
      simpl in He1; [|simpl; rewrite He1; eexists; reflexivity].
    pose proof (sqlite_send_message_world gw prompt w2) as Hw.
    destruct (Sqlite.send_message gw prompt w2) as [[[reply|]|e] w3];
      simpl in Hw; subst w3; simpl; try (rewrite He1; eexists; reflexivity).
    destruct (String.eqb reply ""); simpl;
      [rewrite He1; eexists; reflexivity|].
    set (w4 := World (disk w2) (open_connections w2) _).
    assert (Hm4 : messages_table (disk w4) = Some (ms ++ e1)) by exact He1.
    destruct (sqlite_save_message_appends
                (Sqlite.current_session (session_state w2)) "assistant" reply
                t_reply w4 Hm4) as [e2 He2].
    simpl in He2 |- *. rewrite He2. appended.
Qed.

(** C8: in both variants no operation of the script changes or removes a
    stored message row: whatever the operation does, returns or raises, the
    committed messages table afterwards is the table before followed by the
    rows written.  Retrying a turn in chatUI-Copilot, when the webhook
    replies, writes exactly one new row, holding the original user text and
    the fresh reply, after the rows that were there. *)
Theorem history_is_append_only :
  (forall (o : Copilot.operation) (w : Copilot.W) ms,
      messages_table (disk w) = Some ms ->
      exists extra, messages_table (disk (Copilot.run o w)) = Some (ms ++ extra))
  /\
  (forall (o : Sqlite.operation) (w : Sqlite.W) ms,
      messages_table (disk w) = Some ms ->
      exists extra, messages_table (disk (Sqlite.run o w)) = Some (ms ++ extra))
  /\
  (forall (gw : Copilot.gateway) (user_msg reply : string) (ok : bool) (now : Z)
          (w : Copilot.W) ms,
      messages_table (disk w) = Some ms ->
      readonly (disk w) = false ->
      gw (disk w) (session_state w) user_msg = Response ok (Json (Some reply)) ->
      fst (Copilot.retry gw user_msg now w) = Ok tt
      /\ messages_table (disk (snd (Copilot.retry gw user_msg now w)))
         = Some (ms ++ [Copilot.Message (next_rowid Copilot.id ms)
                                        (session_state w) user_msg reply now])).
Proof.
  split; [exact copilot_history_grows|]. split; [exact sqlite_history_grows|].
  intros gw user_msg reply ok now w ms Hm Hro Hgw.
  unfold Copilot.retry, bind, get_state, Copilot.send_message.
  rewrite Hgw. simpl. rewrite copilot_save_message_eval, Hm, Hro.
  split; reflexivity.
Qed.

(** ** The properties at the sample stores *)

Lemma get_session_messages_ordered_transcript_witness :
  (messages_table (disk copilot_store)
   = Some (rows_of (messages_table (disk copilot_store)))
   /\ exists rows,
       Copilot.get_session_messages "s1" copilot_store
       = (Ok (map (fun m => (Copilot.user_message m, Copilot.llm_response m)) rows),
          copilot_store)
       /\ ordered_transcript Copilot.msg_session_id Copilot.timestamp "s1"
            (rows_of (messages_table (disk copilot_store))) rows)
  /\
  (messages_table (disk sqlite_store)
   = Some (rows_of (messages_table (disk sqlite_store)))
   /\ exists rows,
       Sqlite.get_session_messages "s2" sqlite_store
       = (Ok (map (fun m => (Sqlite.role m, Sqlite.content m)) rows), sqlite_store)
       /\ ordered_transcript Sqlite.msg_session_id Sqlite.timestamp "s2"
            (rows_of (messages_table (disk sqlite_store))) rows).
Proof.
  split; (split; [reflexivity|]).
  - exact (proj1 get_session_messages_ordered_transcript
                 copilot_store "s1" _ eq_refl).
  - exact (proj2 get_session_messages_ordered_transcript
                 sqlite_store "s2" _ eq_refl).
Defined.

Lemma save_message_leaves_other_transcripts_witness :
  "s1" <> "s2"
  /\ fst (Copilot.get_session_messages "s2"
            (snd (Copilot.save_message "s1" "more" "sure" 60 copilot_store)))
     = fst (Copilot.get_session_messages "s2" copilot_store)
  /\ fst (Sqlite.get_session_messages "s2"
            (snd (Sqlite.save_message "s1" "user" "more" 60 sqlite_store)))
     = fst (Sqlite.get_session_messages "s2" sqlite_store).
Proof.
  assert (H : "s1" <> "s2") by discriminate.
  split; [exact H|]. split.
  - apply (proj1 (save_message_leaves_other_transcripts H)).
  - apply (proj2 (save_message_leaves_other_transcripts H)).
Defined.

Lemma init_db_idempotent_witness :
  (1 <= 3)%nat
  /\ disk (times 3 Copilot.init_db copilot_new_file)
     = disk (snd (Copilot.init_db copilot_new_file))
  /\ disk (times 3 Sqlite.init_db sqlite_store)
     = disk (snd (Sqlite.init_db sqlite_store)).
Proof.
  assert (H : (1 <= 3)%nat) by lia.
  split; [exact H|]. split.
  - apply (proj1 (init_db_idempotent H)).
  - apply (proj2 (init_db_idempotent H)).
Defined.

Lemma list_sessions_most_recent_first_witness :
  (sessions_table (disk copilot_store)
   = Some (rows_of (sessions_table (disk copilot_store)))
   /\ exists rows,
       Copilot.get_sessions copilot_store = (Ok rows, copilot_store)
       /\ Permutation rows
            (map (fun s => (Copilot.session_id s, Copilot.created_at s))
                 (rows_of (sessions_table (disk copilot_store))))
       /\ StronglySorted (fun a b => snd b <= snd a) rows)
  /\
  (sessions_table (disk sqlite_store)
   = Some (rows_of (sessions_table (disk sqlite_store)))
   /\ messages_table (disk sqlite_store)
      = Some (rows_of (messages_table (disk sqlite_store)))
   /\ exists rows,
       Sqlite.get_all_sessions sqlite_store = (Ok rows, sqlite_store)
       /\ (forall r,
              In r rows
              <-> exists s, In s (rows_of (sessions_table (disk sqlite_store)))
                            /\ r = (Sqlite.session_id s, Sqlite.created_at s,
                                    Sqlite.last_updated s)
                            /\ exists m,
                                In m (rows_of (messages_table (disk sqlite_store)))
                                /\ Sqlite.msg_session_id m = Sqlite.session_id s)
       /\ NoDup rows
       /\ StronglySorted (fun a b => snd b <= snd a) rows).
Proof.
  split.
  - split; [reflexivity|].
    exact (proj1 list_sessions_most_recent_first copilot_store _ eq_refl).
  - split; [reflexivity|]. split; [reflexivity|].
    exact (proj2 list_sessions_most_recent_first sqlite_store _ _ eq_refl eq_refl).
Defined.

Lemma sqlite_store_unique_ids :
  NoDup (map Sqlite.session_id (rows_of (sessions_table (disk sqlite_store)))).
Proof.
  simpl. constructor.
  - intros [H|[]]. discriminate H.
  - constructor; [intros [] | constructor].
Defined.

Lemma get_all_sessions_only_with_messages_witness :
  sessions_table (disk sqlite_store)
  = Some [Sqlite.Session "s1" 10 10; Sqlite.Session "s2" 20 45]
  /\ NoDup (map Sqlite.session_id (rows_of (sessions_table (disk sqlite_store))))
  /\ exists rows,
      Sqlite.get_all_sessions sqlite_store = (Ok rows, sqlite_store)
      /\ List.length rows = 1%nat.
Proof.
  split; [reflexivity|]. split; [exact sqlite_store_unique_ids|].
  destruct (@get_all_sessions_only_with_messages sqlite_store _ _
              eq_refl eq_refl sqlite_store_unique_ids)
    as [rows [Hrows [_ [_ [_ Hone]]]]].
  exists rows. split; [exact Hrows|].
  apply (Hone (Sqlite.Session "s1" 10 10) (Sqlite.Session "s2" 20 45) eq_refl).
  - discriminate.
  - intros m [<-|[<-|[]]]; reflexivity.
Defined.

Lemma chat_input_persistence_witness :
  ("ping" <> ""
   /\ readonly (disk sqlite_store) = false
   /\ messages_table
        (disk (snd (Sqlite.chat_input sqlite_gateway_reads_store "ping" 60 61
                                      sqlite_store)))
      = Some [Sqlite.Message 1 "s2" "user" "hello" 40;
              Sqlite.Message 2 "s2" "assistant" "hi there" 45;
              Sqlite.Message 3 "s2" "user" "ping" 60;
              Sqlite.Message 4 "s2" "assistant" "pong" 61])
  /\
  ("are you there" <> ""
   /\ readonly (disk copilot_store) = false
   /\ disk (snd (Copilot.chat_input copilot_gateway_reads_store "are you there" 60
                                    copilot_store))
      = disk copilot_store
   /\ messages_table
        (disk (snd (Copilot.chat_input copilot_gateway_pong "are you there" 60
                                       copilot_store)))
      = Some [Copilot.Message 1 "s1" "ping" "pong" 30;
              Copilot.Message 2 "s2" "hello" "hi there" 40;
              Copilot.Message 3 "s1" "again" "sure" 50;
              Copilot.Message 4 "s1" "are you there" "pong" 60]).
Proof.
  assert (Hping : "ping" <> "") by discriminate.
  assert (Hpong : "pong" <> "") by discriminate.
  assert (Hthere : "are you there" <> "") by discriminate.
  split.
  - split; [exact Hping|]. split; [reflexivity|].
    exact (proj1 chat_input_persistence sqlite_gateway_reads_store "ping" 60 61
                 sqlite_store _ _ Hping eq_refl eq_refl eq_refl Hpong).
  - split; [exact Hthere|]. split; [reflexivity|]. split.
    + exact (proj2 chat_input_persistence copilot_gateway_reads_store
                   "are you there" 60 copilot_store _ Hthere eq_refl eq_refl).
    + exact (proj2 chat_input_persistence copilot_gateway_pong
                   "are you there" 60 copilot_store _ Hthere eq_refl eq_refl
                   eq_refl).
Defined.

Lemma sidebar_preview_witness :
  sessions_table (disk sqlite_store_25)
  = Some (rows_of (sessions_table (disk sqlite_store_25)))
  /\ messages_table (disk sqlite_store_25)
     = Some (rows_of (messages_table (disk sqlite_store_25)))
  /\ exists sessions entries,
      Sqlite.get_all_sessions sqlite_store_25 = (Ok sessions, sqlite_store_25)
      /\ Sqlite.sidebar sqlite_store_25 = (Ok entries, sqlite_store_25)
      /\ Forall2
           (fun (r : string * Z * Z) (e : string * string) =>
              snd e = fst (fst r)
              /\ exists text,
                  first_user_message
                    (rows_of (messages_table (disk sqlite_store_25)))
                    (fst (fst r)) text
                  /\ ((String.length text <= 27)%nat -> fst e = text)
                  /\ ((27 < String.length text)%nat ->
                      fst e = String.append (substring 0 24 text) "...")
                  /\ (text = "" -> fst e = ""))
           sessions entries.
Proof.
  split; [reflexivity|]. split; [reflexivity|].
  exact (@sidebar_preview sqlite_store_25 _ _ eq_refl eq_refl).
Defined.

Lemma history_is_append_only_witness :
  (messages_table (disk copilot_store)
   = Some (rows_of (messages_table (disk copilot_store)))
   /\ exists extra,
       messages_table
         (disk (Copilot.run (Copilot.SaveMessage "s1" "more" "sure" 60) copilot_store))
       = Some (rows_of (messages_table (disk copilot_store)) ++ extra))
  /\
  (exists extra,
      messages_table
        (disk (Sqlite.run (Sqlite.ChatInput sqlite_gateway_reads_store "ping" 60 61)
                          sqlite_store))
      = Some (rows_of (messages_table (disk sqlite_store)) ++ extra))
  /\
  (readonly (disk copilot_store) = false
   /\ copilot_gateway_pong (disk copilot_store) "s1" "ping"
      = Response true (Json (Some "pong"))
   /\ fst (Copilot.retry copilot_gateway_pong "ping" 60 copilot_store) = Ok tt
   /\ messages_table (disk (snd (Copilot.retry copilot_gateway_pong "ping" 60
                                               copilot_store)))
      = Some [Copilot.Message 1 "s1" "ping" "pong" 30;
              Copilot.Message 2 "s2" "hello" "hi there" 40;
              Copilot.Message 3 "s1" "again" "sure" 50;
              Copilot.Message 4 "s1" "ping" "pong" 60]).
Proof.
  split; [|split].
  - split; [reflexivity|].
    exact (proj1 history_is_append_only
                 (Copilot.SaveMessage "s1" "more" "sure" 60) copilot_store _ eq_refl).
  - exact (proj1 (proj2 history_is_append_only)
                 (Sqlite.ChatInput sqlite_gateway_reads_store "ping" 60 61)
                 sqlite_store _ eq_refl).
  - split; [reflexivity|]. split; [reflexivity|].
    exact (proj2 (proj2 history_is_append_only)
                 copilot_gateway_pong "ping" "pong" true 60 copilot_store _
                 eq_refl eq_refl eq_refl).
Defined.

(** * Further properties of the two scripts *)

(** ** Writing a message, then reading the transcript *)

Lemma insert_sorted_snoc {A} (le : A -> A -> bool) (y x : A) (l : list A) :
  le y x = true ->
  insert_sorted le y (l ++ [x]) = insert_sorted le y l ++ [x].
Proof.
  intros Hyx. induction l as [|z l IH]; simpl.
  - rewrite Hyx. reflexivity.
  - destruct (le y z); [reflexivity|]. rewrite IH. reflexivity.
Qed.

Lemma order_by_snoc {A} (le : A -> A -> bool) (x : A) (l : list A) :
  (forall y, In y l -> le y x = true) ->
  order_by le (l ++ [x]) = order_by le l ++ [x].
Proof.
  induction l as [|a l IH]; simpl; intros Hl.
  - reflexivity.
  - rewrite IH by (intros y Hy; apply Hl; right; exact Hy).
    apply insert_sorted_snoc. apply Hl. left. reflexivity.
Qed.

(** A row written later than every row of its session comes last in the
    session's transcript. *)
Lemma transcript_snoc {R} (session_of : R -> string) (time_of : R -> Z)
      (sid : string) (ms : list R) (row : R) :
  session_of row = sid ->
  (forall m, In m ms -> session_of m = sid -> time_of m < time_of row) ->
  order_by (asc time_of)
           (filter (fun m => String.eqb (session_of m) sid) (ms ++ [row]))
  = order_by (asc time_of)
             (filter (fun m => String.eqb (session_of m) sid) ms) ++ [row].
Proof.
  intros Hrow Hlater. rewrite filter_app. simpl.
  rewrite Hrow, String.eqb_refl. apply order_by_snoc.
  intros y Hy. apply filter_In in Hy. destruct Hy as [Hin Hs].
  apply String.eqb_eq in Hs. unfold asc. apply Z.leb_le.
  specialize (Hlater y Hin Hs). lia.
Qed.

Lemma copilot_save_message_read_back (sid user_msg llm_resp : string) (now : Z)
      (w : Copilot.W) (ms : list Copilot.message) :
  messages_table (disk w) = Some ms ->
  readonly (disk w) = false ->
  (forall m, In m ms -> Copilot.msg_session_id m = sid ->
             Copilot.timestamp m < now) ->
  exists before,
    fst (Copilot.get_session_messages sid w) = Ok before
    /\ fst (Copilot.get_session_messages sid
              (snd (Copilot.save_message sid user_msg llm_resp now w)))
       = Ok (before ++ [(user_msg, llm_resp)]).
Proof.
  intros Hm Hro Hlater. eexists.
  rewrite !copilot_get_session_messages_fst, copilot_save_message_eval, Hm, Hro.
  split; [reflexivity|]. simpl. unfold Copilot.session_rows.
  rewrite transcript_snoc by (auto || reflexivity).
  rewrite map_app. reflexivity.
Qed.

Lemma sqlite_save_message_read_back (sid role_ content_ : string) (now : Z)
      (w : Sqlite.W) (ss : list Sqlite.session) (ms : list Sqlite.message) :
  sessions_table (disk w) = Some ss ->
  messages_table (disk w) = Some ms ->
  readonly (disk w) = false ->
  (forall m, In m ms -> Sqlite.msg_session_id m = sid ->
             Sqlite.timestamp m < now) ->
  exists before,
    fst (Sqlite.get_session_messages sid w) = Ok before
    /\ fst (Sqlite.get_session_messages sid
              (snd (Sqlite.save_message sid role_ content_ now w)))
       = Ok (before ++ [(role_, content_)]).
Proof.
  intros Hs Hm Hro Hlater. eexists.
  rewrite !sqlite_get_session_messages_fst, sqlite_save_message_eval, Hm, Hro, Hs.
  split; [reflexivity|]. simpl. unfold Sqlite.session_rows.
  rewrite transcript_snoc by (auto || reflexivity).
  rewrite map_app. reflexivity.
Qed.

(** X1: in both variants, on a writable store that has its tables, a message
    saved for session [sid] at a time later than every stored row of that
    session is read back by [get_session_messages sid] as the last entry of
    the transcript, after the entries that were there. *)
Theorem save_message_then_read (sid : string) (now : Z) :
  (forall (user_msg llm_resp : string) (w : Copilot.W) ms,
      messages_table (disk w) = Some ms ->
      readonly (disk w) = false ->
      (forall m, In m ms -> Copilot.msg_session_id m = sid ->
                 Copilot.timestamp m < now) ->
      exists before,
        fst (Copilot.get_session_messages sid w) = Ok before
        /\ fst (Copilot.get_session_messages sid
                  (snd (Copilot.save_message sid user_msg llm_resp now w)))
           = Ok (before ++ [(user_msg, llm_resp)]))
  /\
  (forall (role_ content_ : string) (w : Sqlite.W) ss ms,
      sessions_table (disk w) = Some ss ->
      messages_table (disk w) = Some ms ->
      readonly (disk w) = false ->
      (forall m, In m ms -> Sqlite.msg_session_id m = sid ->
                 Sqlite.timestamp m < now) ->
      exists before,
        fst (Sqlite.get_session_messages sid w) = Ok before
        /\ fst (Sqlite.get_session_messages sid
                  (snd (Sqlite.save_message sid role_ content_ now w)))
           = Ok (before ++ [(role_, content_)])).
Proof.
  split.
  - intros user_msg llm_resp w ms.
    apply (@copilot_save_message_read_back sid user_msg llm_resp now w ms).
  - intros role_ content_ w ss ms.
    apply (@sqlite_save_message_read_back sid role_ content_ now w ss ms).
Qed.

Lemma save_message_then_read_witness :
  (readonly (disk copilot_store) = false
   /\ exists before,
       fst (Copilot.get_session_messages "s1" copilot_store) = Ok before
       /\ fst (Copilot.get_session_messages "s1"
                 (snd (Copilot.save_message "s1" "more" "sure" 60 copilot_store)))
          = Ok (before ++ [("more", "sure")]))
  /\
  (readonly (disk sqlite_store) = false
   /\ exists before,
       fst (Sqlite.get_session_messages "s2" sqlite_store) = Ok before
       /\ fst (Sqlite.get_session_messages "s2"
                 (snd (Sqlite.save_message "s2" "user" "more" 60 sqlite_store)))
          = Ok (before ++ [("user", "more")])).
Proof.
  split; (split; [reflexivity|]).
  - apply (proj1 (save_message_then_read "s1" 60) "more" "sure" copilot_store _
                 eq_refl eq_refl).
    simpl. intros m [<-|[<-|[<-|[]]]] _; reflexivity.
  - apply (proj2 (save_message_then_read "s2" 60) "user" "more" sqlite_store _ _
                 eq_refl eq_refl eq_refl).
    simpl. intros m [<-|[<-|[]]] _; reflexivity.
Defined.

(** ** The stored transcript after a turn *)

Lemma copilot_show_history_fst (w : Copilot.W) :
  fst (Copilot.show_history w)
  = fst (Copilot.get_session_messages (session_state w) w).
Proof. reflexivity. Qed.

Lemma copilot_exchange_eval (gw : Copilot.gateway) (text reply : string)
      (ok : bool) (now : Z) (w : Copilot.W) :
  gw (disk w) (session_state w) text = Response ok (Json (Some reply)) ->
  Copilot.retry gw text now w
  = Copilot.save_message (session_state w) text reply now w.
Proof.
  intros Hgw. unfold Copilot.retry, bind, get_state, Copilot.send_message.
  rewrite Hgw. reflexivity.
Qed.

(** X2: in chatUI-Copilot, on a writable store, when the webhook replies to a
    text sent (chat input with a non-empty text) or sent again (retry body)
    at a time later than the stored turns of the current session, the query
    for the turns of the current session returns afterwards what it returned
    before followed by the turn (text, reply), so that after a retry the
    stored transcript holds the retried text once more. *)
Theorem copilot_history_after_exchange
        (gw : Copilot.gateway) (text reply : string) (ok : bool) (now : Z)
        (w : Copilot.W) (ms : list Copilot.message) :
  messages_table (disk w) = Some ms ->
  readonly (disk w) = false ->
  gw (disk w) (session_state w) text = Response ok (Json (Some reply)) ->
  (forall m, In m ms -> Copilot.msg_session_id m = session_state w ->
             Copilot.timestamp m < now) ->
  exists before,
    fst (Copilot.show_history w) = Ok before
    /\ fst (Copilot.show_history (snd (Copilot.retry gw text now w)))
       = Ok (before ++ [(text, reply)])
    /\ (text <> "" ->
        fst (Copilot.show_history (snd (Copilot.chat_input gw text now w)))
        = Ok (before ++ [(text, reply)])).
Proof.
  intros Hm Hro Hgw Hlater.
  destruct (@copilot_save_message_read_back (session_state w) text reply now
              w ms Hm Hro Hlater) as [before [Hb Ha]].
  assert (Hst : session_state
                  (snd (Copilot.save_message (session_state w) text reply now w))
                = session_state w).
  { rewrite copilot_save_message_eval, Hm, Hro. reflexivity. }
  assert (Hretry : fst (Copilot.show_history (snd (Copilot.retry gw text now w)))
                   = Ok (before ++ [(text, reply)])).
  { rewrite (copilot_exchange_eval gw text now w Hgw).
    rewrite copilot_show_history_fst, Hst. exact Ha. }
  exists before. split; [rewrite copilot_show_history_fst; exact Hb|].
  split; [exact Hretry|].
  intros Htext. apply String.eqb_neq in Htext.
  unfold Copilot.chat_input. rewrite Htext. exact Hretry.
Qed.

Lemma copilot_history_after_exchange_witness :
  readonly (disk copilot_store) = false
  /\ exists before,
      fst (Copilot.show_history copilot_store) = Ok before
      /\ fst (Copilot.show_history
                (snd (Copilot.retry copilot_gateway_pong "ping" 60 copilot_store)))
         = Ok (before ++ [("ping", "pong")])
      /\ ("ping" <> "" ->
          fst (Copilot.show_history
                 (snd (Copilot.chat_input copilot_gateway_pong "ping" 60
                                          copilot_store)))
          = Ok (before ++ [("ping", "pong")])).
Proof.
  split; [reflexivity|].
  apply (@copilot_history_after_exchange copilot_gateway_pong "ping" "pong" true 60
           copilot_store _ eq_refl eq_refl eq_refl).
  simpl. intros m [<-|[<-|[<-|[]]]] _; reflexivity.
Defined.

(** ** The transcript on display in chatUI-Sqlite *)

Lemma shown_is_stored_iff (w : Sqlite.W) (ms : list Sqlite.message) :
  messages_table (disk w) = Some ms ->
  shown_is_stored w
  <-> Sqlite.messages (session_state w)
      = map (fun m => (Sqlite.role m, Sqlite.content m))
            (Sqlite.session_rows (Sqlite.current_session (session_state w)) ms).
Proof.
  intros Hm. unfold shown_is_stored.
  rewrite sqlite_get_session_messages_fst, Hm.
  split; [intros H; injection H as H; symmetry; exact H | intros ->; reflexivity].
Qed.

Lemma shown_is_stored_intro (d : Sqlite.db) (n : nat) (sid : string)
      (shown : list (string * string)) (ms : list Sqlite.message) :
  messages_table d = Some ms ->
  shown = map (fun m => (Sqlite.role m, Sqlite.content m))
              (Sqlite.session_rows sid ms) ->
  shown_is_stored (World d n (Sqlite.State sid shown)).
Proof.
  intros Hm ->. apply (@shown_is_stored_iff (World d n (Sqlite.State sid _)) ms Hm).
  reflexivity.
Qed.

(** X3: in chatUI-Sqlite, clicking the sidebar button of a session, on a
    store that has the messages table, makes that session current and puts
    its stored transcript on display. *)
Theorem select_session_shows_stored (sid : string) (w : Sqlite.W)
        (ms : list Sqlite.message) :
  messages_table (disk w) = Some ms ->
  let w' := snd (Sqlite.select_session sid w) in
  fst (Sqlite.select_session sid w) = Ok tt
  /\ Sqlite.current_session (session_state w') = sid
  /\ disk w' = disk w
  /\ shown_is_stored w'.
Proof.
  intros Hm. destruct w as [d n [cur shown]]; simpl in Hm.
  unfold Sqlite.select_session, Sqlite.set_session_id, Sqlite.set_messages,
    bind, get_state, put_state; simpl.
  rewrite (@sqlite_get_session_messages_eval sid (World d n (Sqlite.State sid shown))
             ms Hm). simpl.
  repeat split.
  apply shown_is_stored_intro with (ms := ms); [exact Hm | reflexivity].
Qed.

Lemma select_session_shows_stored_witness :
  messages_table (disk sqlite_store)
  = Some (rows_of (messages_table (disk sqlite_store)))
  /\ Sqlite.current_session
       (session_state (snd (Sqlite.select_session "s1" sqlite_store))) = "s1"
  /\ shown_is_stored (snd (Sqlite.select_session "s1" sqlite_store)).
Proof.
  split; [reflexivity|].
  destruct (@select_session_shows_stored "s1" sqlite_store _ eq_refl)
    as [_ [Hcur [_ Hshown]]].
  split; [exact Hcur | exact Hshown].
Defined.

(** X4: in chatUI-Sqlite, on a writable store that has its tables, the chat
    input handler keeps the transcript on display equal to the stored
    transcript of the current session, whatever the webhook does (reply,
    empty reply, failure, body without output), provided the clock readings
    of the two writes come after the stored rows of the session and in
    order. *)
Theorem chat_input_keeps_shown_stored
        (gw : Sqlite.gateway) (prompt : string) (t_user t_reply : Z)
        (w : Sqlite.W) (ss : list Sqlite.session) (ms : list Sqlite.message) :
  sessions_table (disk w) = Some ss ->
  messages_table (disk w) = Some ms ->
  readonly (disk w) = false ->
  (forall m, In m ms ->
             Sqlite.msg_session_id m = Sqlite.current_session (session_state w) ->
             Sqlite.timestamp m < t_user) ->
  t_user < t_reply ->
  shown_is_stored w ->
  shown_is_stored (snd (Sqlite.chat_input gw prompt t_user t_reply w)).
Proof.
  intros Hs Hm Hro Hlater Horder Hshown.
  apply (@shown_is_stored_iff w ms Hm) in Hshown.
  destruct w as [[ss' ms' ro] n [sid shown]]; simpl in *; subst.
  unfold Sqlite.chat_input.
  destruct (String.eqb prompt "");
    [apply shown_is_stored_intro with (ms := ms); reflexivity|].
  unfold Sqlite.append_shown, bind, get_state, put_state; simpl.
  unfold Sqlite.send_message; simpl.
  set (user_row := Sqlite.Message (next_rowid Sqlite.id ms) sid "user" prompt t_user).
  assert (Huser : map (fun m => (Sqlite.role m, Sqlite.content m))
                      (Sqlite.session_rows sid (ms ++ [user_row]))
                  = map (fun m => (Sqlite.role m, Sqlite.content m))
                        (Sqlite.session_rows sid ms) ++ [("user", prompt)]).
  { unfold Sqlite.session_rows.
    rewrite transcript_snoc by (auto || reflexivity).
    rewrite map_app. reflexivity. }
  assert (Hone : forall d k,
             messages_table d = Some (ms ++ [user_row]) ->
             shown_is_stored
               (World d k
                  (Sqlite.State sid
                     (map (fun m => (Sqlite.role m, Sqlite.content m))
                          (Sqlite.session_rows sid ms) ++ [("user", prompt)])))).
  { intros d k Hd. apply shown_is_stored_intro with (ms := ms ++ [user_row]);
      [exact Hd | symmetry; exact Huser]. }
  destruct (gw _ sid prompt) as [|[|] [|[reply|]]]; simpl;
    try (apply Hone; reflexivity).
  destruct (String.eqb reply ""); simpl; [apply Hone; reflexivity|].
  eapply shown_is_stored_intro; [reflexivity|].
  unfold Sqlite.session_rows.
  rewrite transcript_snoc; [| reflexivity |].
  - rewrite map_app. fold (Sqlite.session_rows sid (ms ++ [user_row])).
    rewrite Huser. reflexivity.
  - intros m Hin Hsid. simpl. apply in_app_or in Hin.
    destruct Hin as [Hin|[<-|[]]]; [|simpl; exact Horder].
    specialize (Hlater m Hin Hsid). lia.
Qed.

Lemma sqlite_store_shown_is_stored : shown_is_stored sqlite_store.
Proof. reflexivity. Defined.

Lemma chat_input_keeps_shown_stored_witness :
  readonly (disk sqlite_store) = false
  /\ 60 < 61
  /\ shown_is_stored sqlite_store
  /\ shown_is_stored
       (snd (Sqlite.chat_input sqlite_gateway_reads_store "ping" 60 61 sqlite_store)).
Proof.
  assert (Horder : 60 < 61) by lia.
  split; [reflexivity|]. split; [exact Horder|].
  split; [exact sqlite_store_shown_is_stored|].
  apply (@chat_input_keeps_shown_stored sqlite_gateway_reads_store "ping" 60 61
           sqlite_store _ _ eq_refl eq_refl eq_refl).
  - simpl. intros m [<-|[<-|[]]] _; reflexivity.
  - exact Horder.
  - exact sqlite_store_shown_is_stored.
Defined.

(** ** Where a session stands in the listing *)

Lemma sorted_desc_head {A} (key : A -> Z) (l : list A) (x : A) :
  StronglySorted (fun a b => key b <= key a) l ->
  In x l ->
  (forall y, In y l -> y = x \/ key y < key x) ->
  exists rest, l = x :: rest.
Proof.
  intros Hsorted Hin Hmax. destruct l as [|h t]; [contradiction|].
  destruct (Hmax h (or_introl eq_refl)) as [->|Hlt]; [eexists; reflexivity|].
  destruct Hin as [->|Hin]; [eexists; reflexivity|].
  inversion Hsorted as [|h' t' _ Hall]; subst.
  rewrite Forall_forall in Hall. specialize (Hall x Hin). lia.
Qed.

Lemma copilot_create_session_eval (sid : string) (now : Z) (w : Copilot.W) :
  Copilot.create_session sid now w
  = match sessions_table (disk w) with
    | None => (Raise (no_such_table "sessions"), w)
    | Some ss =>
        if readonly (disk w) then (Raise readonly_database, w)
        else if existsb (fun s => String.eqb (Copilot.session_id s) sid) ss
        then (Raise (IntegrityError "UNIQUE constraint failed"), w)
        else (Ok tt,
              World (Database (Some (ss ++ [Copilot.Session sid now]))
                              (messages_table (disk w)) false)
                    (open_connections w) (session_state w))
    end.
Proof.
  destruct w as [[[ss|] ms [|]] n st]; unfold_copilot; simpl; try reflexivity.
  destruct (existsb _ ss); reflexivity.
Qed.

Lemma existsb_none {A} (f : A -> bool) (l : list A) :
  (forall a, In a l -> f a = false) -> existsb f l = false.
Proof.
  intros H. destruct (existsb f l) eqn:E; [|reflexivity].
  apply existsb_exists in E. destruct E as [a [Ha Hf]].
  rewrite (H a Ha) in Hf. discriminate.
Qed.

(** X5: in chatUI-Sqlite, on a writable store with unique session ids, once a
    message is saved for an existing session at a time later than the
    [last_updated] of every other session, [get_all_sessions] lists that
    session first, with its [created_at] unchanged and [last_updated] equal
    to the time of the message. *)
Theorem save_message_moves_session_first
        (sid role_ content_ : string) (now : Z) (w : Sqlite.W)
        (ss : list Sqlite.session) (ms : list Sqlite.message) (s : Sqlite.session) :
  sessions_table (disk w) = Some ss ->
  messages_table (disk w) = Some ms ->
  readonly (disk w) = false ->
  NoDup (map Sqlite.session_id ss) ->
  In s ss ->
  Sqlite.session_id s = sid ->
  (forall s', In s' ss -> Sqlite.session_id s' <> sid ->
              Sqlite.last_updated s' < now) ->
  exists rest,
    fst (Sqlite.get_all_sessions
           (snd (Sqlite.save_message sid role_ content_ now w)))
    = Ok ((sid, Sqlite.created_at s, now) :: rest).
Proof.
  intros Hs Hm Hro Hpk Hin Hsid Hothers.
  rewrite sqlite_save_message_eval, Hm, Hro, Hs. cbn [snd].
  set (touch := fun s0 => if String.eqb (Sqlite.session_id s0) sid
                          then Sqlite.Session (Sqlite.session_id s0)
                                              (Sqlite.created_at s0) now
                          else s0).
  set (row := Sqlite.Message (next_rowid Sqlite.id ms) sid role_ content_ now).
  rewrite (@sqlite_get_all_sessions_eval
             (World (Database (Some (map touch ss)) (Some (ms ++ [row])) false)
                    (open_connections w) (session_state w))
             (map touch ss) (ms ++ [row]) eq_refl eq_refl).
  cbn [fst].
  destruct (@sorted_desc_head _ (fun r : string * Z * Z => snd r)
              (order_by (desc (fun r : string * Z * Z => snd r))
                 (nodup Sqlite.row_eq_dec
                    (Sqlite.join_rows (map touch ss) (ms ++ [row]))))
              (sid, Sqlite.created_at s, now)) as [rest Hrest].
  - apply (order_by_desc_sorted (fun r : string * Z * Z => snd r)).
  - apply listing_In, join_rows_In.
    exists (touch s). split; [apply in_map; exact Hin|].
    unfold touch. rewrite Hsid, String.eqb_refl. simpl.
    split; [reflexivity|].
    exists row. split; [apply in_or_app; right; left; reflexivity | reflexivity].
  - intros r Hr. apply listing_In, join_rows_In in Hr.
    destruct Hr as [s1 [Hs1 [Hr _]]]. apply in_map_iff in Hs1.
    destruct Hs1 as [s0 [Ht Hs0]]. subst r s1. unfold touch.
    destruct (String.eqb (Sqlite.session_id s0) sid) eqn:E.
    + left. apply String.eqb_eq in E.
      assert (s0 = s)
        by (apply (NoDup_map_unique Sqlite.session_id ss s0 s Hpk Hs0 Hin);
            congruence).
      subst s0. simpl. rewrite Hsid. reflexivity.
    + right. simpl. apply Hothers; [exact Hs0|].
      apply String.eqb_neq. exact E.
  - exists rest. rewrite Hrest. reflexivity.
Qed.

Lemma save_message_moves_session_first_witness :
  readonly (disk sqlite_store) = false
  /\ exists rest,
      fst (Sqlite.get_all_sessions
             (snd (Sqlite.save_message "s1" "user" "first" 60 sqlite_store)))
      = Ok (("s1", 10, 60) :: rest).
Proof.
  split; [reflexivity|].
  apply (@save_message_moves_session_first "s1" "user" "first" 60 sqlite_store
           _ _ (Sqlite.Session "s1" 10 10) eq_refl eq_refl eq_refl
           sqlite_store_unique_ids).
  - left. reflexivity.
  - reflexivity.
  - simpl. intros s' [<-|[<-|[]]] Hne; [contradiction Hne; reflexivity | reflexivity].
Defined.

(** X6: in chatUI-Copilot, on a writable store, creating a session whose id
    is not in use succeeds and [get_sessions] then lists it along with the
    sessions listed before, whether or not it has messages; it is listed
    first when created later than all of them. *)
Theorem copilot_new_session_is_listed
        (sid : string) (now : Z) (w : Copilot.W) (ss : list Copilot.session) :
  sessions_table (disk w) = Some ss ->
  readonly (disk w) = false ->
  (forall s, In s ss -> Copilot.session_id s <> sid) ->
  fst (Copilot.create_session sid now w) = Ok tt
  /\ exists rows rows',
      fst (Copilot.get_sessions w) = Ok rows
      /\ fst (Copilot.get_sessions (snd (Copilot.create_session sid now w)))
         = Ok rows'
      /\ Permutation rows' ((sid, now) :: rows)
      /\ ((forall s, In s ss -> Copilot.created_at s < now) ->
          exists rest, rows' = (sid, now) :: rest).
Proof.
  intros Hs Hro Hfresh.
  rewrite copilot_create_session_eval, Hs, Hro.
  rewrite existsb_none
    by (intros s Hin; apply String.eqb_neq; apply Hfresh; exact Hin).
  split; [reflexivity|]. cbn [snd].
  rewrite (copilot_get_sessions_eval w Hs).
  rewrite (@copilot_get_sessions_eval
             (World (Database (Some (ss ++ [Copilot.Session sid now]))
                              (messages_table (disk w)) false)
                    (open_connections w) (session_state w))
             (ss ++ [Copilot.Session sid now]) eq_refl).
  eexists. eexists. split; [reflexivity|]. split; [reflexivity|]. split.
  - change (sid, now)
      with ((fun s => (Copilot.session_id s, Copilot.created_at s))
              (Copilot.Session sid now)).
    rewrite <- map_cons. apply Permutation_map.
    eapply perm_trans; [apply order_by_perm|].
    eapply perm_trans; [apply Permutation_sym, Permutation_cons_append|].
    apply perm_skip, Permutation_sym, order_by_perm.
  - intros Hlater.
    destruct (@sorted_desc_head _ Copilot.created_at
                (order_by (desc Copilot.created_at)
                          (ss ++ [Copilot.Session sid now]))
                (Copilot.Session sid now)) as [rest Hrest].
    + apply order_by_desc_sorted.
    + apply (Permutation_in _ (Permutation_sym (order_by_perm _ _))).
      apply in_or_app. right. left. reflexivity.
    + intros y Hy. apply (Permutation_in _ (order_by_perm _ _)) in Hy.
      apply in_app_or in Hy. destruct Hy as [Hy|[<-|[]]].
      * right. simpl. apply Hlater. exact Hy.
      * left. reflexivity.
    + rewrite Hrest. simpl. eexists. reflexivity.
Qed.

Lemma copilot_new_session_is_listed_witness :
  readonly (disk copilot_store) = false
  /\ fst (Copilot.create_session "s3" 60 copilot_store) = Ok tt
  /\ exists rows rows',
      fst (Copilot.get_sessions copilot_store) = Ok rows
      /\ fst (Copilot.get_sessions (snd (Copilot.create_session "s3" 60 copilot_store)))
         = Ok rows'
      /\ Permutation rows' (("s3", 60) :: rows)
      /\ ((forall s, In s (rows_of (sessions_table (disk copilot_store))) ->
                     Copilot.created_at s < 60) ->
          exists rest, rows' = ("s3", 60) :: rest).
Proof.
  split; [reflexivity|].
  apply (@copilot_new_session_is_listed "s3" 60 copilot_store _ eq_refl eq_refl).
  simpl. intros s [<-|[<-|[]]]; discriminate.
Defined.

(** X7: in chatUI-Sqlite, on a writable store, creating a session with an id
    that no session and no message uses succeeds and leaves the listing of
    [get_all_sessions] as it was: the new session is not listed.  It is
    listed, with the time of the message as [last_updated], as soon as a
    first message is saved for it. *)
Theorem sqlite_new_session_listed_after_first_message
        (fresh : string) (now : Z) (w : Sqlite.W)
        (ss : list Sqlite.session) (ms : list Sqlite.message) :
  sessions_table (disk w) = Some ss ->
  messages_table (disk w) = Some ms ->
  readonly (disk w) = false ->
  (forall s, In s ss -> Sqlite.session_id s <> fresh) ->
  (forall m, In m ms -> Sqlite.msg_session_id m <> fresh) ->
  let w1 := snd (Sqlite.create_new_session fresh now w) in
  fst (Sqlite.create_new_session fresh now w) = Ok fresh
  /\ fst (Sqlite.get_all_sessions w1) = fst (Sqlite.get_all_sessions w)
  /\ (forall r, fst (Sqlite.get_all_sessions w1) = Ok r ->
                ~ In fresh (map (fun x : string * Z * Z => fst (fst x)) r))
  /\ (forall role_ content_ t,
         exists rows,
           fst (Sqlite.get_all_sessions
                  (snd (Sqlite.save_message fresh role_ content_ t w1)))
           = Ok rows
           /\ In (fresh, now, t) rows).
Proof.
  intros Hs Hm Hro Hfresh Hunused. cbv zeta.
  rewrite sqlite_create_new_session_eval, Hs, Hro.
  rewrite existsb_none
    by (intros s Hin; apply String.eqb_neq; apply Hfresh; exact Hin).
  cbn [fst snd]. split; [reflexivity|].
  set (w1 := World (Database (Some (ss ++ [Sqlite.Session fresh now now]))
                             (messages_table (disk w)) false)
                   (open_connections w) (session_state w)).
  assert (Hs1 : sessions_table (disk w1) = Some (ss ++ [Sqlite.Session fresh now now]))
    by reflexivity.
  assert (Hm1 : messages_table (disk w1) = Some ms) by exact Hm.
  assert (Hjoin : Sqlite.join_rows (ss ++ [Sqlite.Session fresh now now]) ms
                  = Sqlite.join_rows ss ms).
  { unfold Sqlite.join_rows. rewrite flat_map_app. simpl.
    rewrite filter_none; [simpl; rewrite app_nil_r; reflexivity|].
    intros m Hin. apply String.eqb_neq. intros E.
    apply (Hunused m Hin). symmetry. exact E. }
  assert (Hlist : fst (Sqlite.get_all_sessions w1) = fst (Sqlite.get_all_sessions w)).
  { rewrite (sqlite_get_all_sessions_eval w1 Hs1 Hm1),
      (sqlite_get_all_sessions_eval w Hs Hm), Hjoin. reflexivity. }
  split; [exact Hlist|]. split.
  - intros r Hr. rewrite Hlist, (sqlite_get_all_sessions_eval w Hs Hm) in Hr.
    injection Hr as <-. intros Hin. apply in_map_iff in Hin.
    destruct Hin as [x [Hx Hin]]. apply listing_In, join_rows_In in Hin.
    destruct Hin as [s [Hin [-> _]]]. simpl in Hx.
    exact (Hfresh s Hin Hx).
  - intros role_ content_ t.
    rewrite sqlite_save_message_eval, Hm1, Hs1. cbn [readonly disk w1 snd].
    eexists. split.
    + erewrite sqlite_get_all_sessions_eval; reflexivity.
    + apply listing_In, join_rows_In.
      exists (Sqlite.Session fresh now t). split.
      * rewrite map_app. apply in_or_app. right. simpl.
        rewrite String.eqb_refl. left. reflexivity.
      * split; [reflexivity|]. eexists. split;
          [apply in_or_app; right; left; reflexivity | reflexivity].
Qed.

Lemma sqlite_new_session_listed_after_first_message_witness :
  readonly (disk sqlite_store) = false
  /\ fst (Sqlite.create_new_session "s3" 50 sqlite_store) = Ok "s3"
  /\ fst (Sqlite.get_all_sessions (snd (Sqlite.create_new_session "s3" 50 sqlite_store)))
     = fst (Sqlite.get_all_sessions sqlite_store)
  /\ exists rows,
      fst (Sqlite.get_all_sessions
             (snd (Sqlite.save_message "s3" "user" "hi" 60
                     (snd (Sqlite.create_new_session "s3" 50 sqlite_store)))))
      = Ok rows
      /\ In ("s3", 50, 60) rows.
Proof.
  split; [reflexivity|].
  destruct (@sqlite_new_session_listed_after_first_message "s3" 50 sqlite_store
              _ _ eq_refl eq_refl eq_refl) as [Hok [Hsame [_ Hlisted]]].
  - simpl. intros s [<-|[<-|[]]]; discriminate.
  - simpl. intros m [<-|[<-|[]]]; discriminate.
  - split; [exact Hok|]. split; [exact Hsame|].
    exact (Hlisted "user" "hi" 60).
Defined.

(** ** What each function leaves behind *)

Lemma copilot_get_sessions_world (w : Copilot.W) :
  snd (Copilot.get_sessions w) = w.
Proof. destruct w as [[[ss|] ms ro] n st]; reflexivity. Qed.

Lemma copilot_get_session_messages_world (sid : string) (w : Copilot.W) :
  snd (Copilot.get_session_messages sid w) = w.
Proof. destruct w as [[ss [ms|] ro] n st]; reflexivity. Qed.

Lemma sqlite_get_session_messages_world (sid : string) (w : Sqlite.W) :
  snd (Sqlite.get_session_messages sid w)
  = match fst (Sqlite.get_session_messages sid w) with
    | Ok _ => w
    | Raise _ => left_open w
    end.
Proof. destruct w as [[ss [ms|] ro] n st]; reflexivity. Qed.

Lemma sqlite_get_first_user_message_world (sid : string) (w : Sqlite.W) :
  snd (Sqlite.get_first_user_message sid w)
  = match fst (Sqlite.get_first_user_message sid w) with
    | Ok _ => w
    | Raise _ => left_open w
    end.
Proof. destruct w as [[ss [ms|] ro] n st]; reflexivity. Qed.

Lemma sqlite_get_all_sessions_world (w : Sqlite.W) :
  snd (Sqlite.get_all_sessions w)
  = match fst (Sqlite.get_all_sessions w) with
    | Ok _ => w
    | Raise _ => left_open w
    end.
Proof. destruct w as [[[ss|] [ms|] ro] n st]; reflexivity. Qed.


(** X8: in chatUI-Copilot a query leaves the world exactly as it found it,
    on every exit path; a function that writes ([init_db], [save_message],
    [create_session]) and raises leaves the world exactly as it found it, and
    when it returns it has closed its connection. *)
Theorem copilot_functions_clean_up (w : Copilot.W) :
  snd (Copilot.get_sessions w) = w
  /\ (forall sid, snd (Copilot.get_session_messages sid w) = w)
  /\ snd (Copilot.show_history w) = w
  /\ match fst (Copilot.init_db w) with
     | Ok _ => open_connections (snd (Copilot.init_db w)) = open_connections w
     | Raise _ => snd (Copilot.init_db w) = w
     end
  /\ (forall sid user_msg llm_resp now,
         match fst (Copilot.save_message sid user_msg llm_resp now w) with
         | Ok _ =>
             open_connections (snd (Copilot.save_message sid user_msg llm_resp now w))
             = open_connections w
         | Raise _ => snd (Copilot.save_message sid user_msg llm_resp now w) = w
         end)
  /\ (forall sid now,
         match fst (Copilot.create_session sid now w) with
         | Ok _ =>
             open_connections (snd (Copilot.create_session sid now w))
             = open_connections w
         | Raise _ => snd (Copilot.create_session sid now w) = w
         end).
Proof.
  split; [apply copilot_get_sessions_world|].
  split; [intros sid; apply copilot_get_session_messages_world|].
  split; [apply (copilot_get_session_messages_world (session_state w) w)|].
  split; [|split].
  - rewrite copilot_init_db_eval.
    destruct (sessions_table (disk w)), (messages_table (disk w)),
      (readonly (disk w)); reflexivity.
  - intros. rewrite copilot_save_message_eval.
    destruct (messages_table (disk w)); [destruct (readonly (disk w))|]; reflexivity.
  - intros. rewrite copilot_create_session_eval.
    destruct (sessions_table (disk w)) as [ss|]; [|reflexivity].
    destruct (readonly (disk w)); [reflexivity|].
    destruct (existsb _ ss); reflexivity.
Qed.


(** ** Invariants of the file *)

Lemma bind_keeps {W A B} (P : W -> Prop) (m : M W A) (k : A -> M W B) (w : W) :
  (forall w0, P w0 -> P (snd (m w0))) ->
  (forall a w0, P w0 -> P (snd (k a w0))) ->
  P w -> P (snd (bind m k w)).
Proof.
  intros Hm Hk Hw. unfold bind. specialize (Hm w Hw).
  destruct (m w) as [[a|e] w']; simpl in Hm; [apply Hk|]; exact Hm.
Qed.

(** A property of the file that the three writing functions keep is kept by
    everything the script does. *)
Section CopilotInvariant.
Variable P : Copilot.db -> Prop.
Hypothesis init_keeps :
  forall w, P (disk w) -> P (disk (snd (Copilot.init_db w))).
Hypothesis save_keeps :
  forall sid u r now w,
    P (disk w) -> P (disk (snd (Copilot.save_message sid u r now w))).
Hypothesis create_keeps :
  forall sid now w, P (disk w) -> P (disk (snd (Copilot.create_session sid now w))).

Lemma copilot_exchange_keeps (gw : Copilot.gateway) (text : string) (now : Z)
      (w : Copilot.W) :
  P (disk w) -> P (disk (snd (Copilot.retry gw text now w))).
Proof.
  intros Hw. unfold Copilot.retry, bind, get_state.
  pose proof (copilot_send_message_world gw text w) as Hsend.
  destruct (Copilot.send_message gw text w) as [[reply|e] w'];
    simpl in Hsend; subst w'; simpl; [apply save_keeps|]; exact Hw.
Qed.

Lemma copilot_act_keeps (a : Copilot.action) (w : Copilot.W) :
  P (disk w) -> P (disk (Copilot.act a w)).
Proof.
  intros Hw. destruct a as [o|fresh now|sid|]; simpl.
  - destruct o; simpl.
    + apply init_keeps, Hw.
    + apply save_keeps, Hw.
    + rewrite copilot_get_sessions_world. exact Hw.
    + rewrite copilot_get_session_messages_world. exact Hw.
    + apply create_keeps, Hw.
    + apply copilot_exchange_keeps, Hw.
    + unfold Copilot.chat_input. destruct (String.eqb prompt ""); [exact Hw|].
      apply copilot_exchange_keeps, Hw.
  - unfold Copilot.start_session, bind, put_state. simpl.
    apply create_keeps. exact Hw.
  - exact Hw.
  - unfold Copilot.show_history, bind, get_state. simpl.
    rewrite copilot_get_session_messages_world. exact Hw.
Qed.

End CopilotInvariant.

Section SqliteInvariant.
Variable P : Sqlite.db -> Prop.
Hypothesis init_keeps :
  forall w, P (disk w) -> P (disk (snd (Sqlite.init_db w))).
Hypothesis save_keeps :
  forall sid r c now w,
    P (disk w) -> P (disk (snd (Sqlite.save_message sid r c now w))).
Hypothesis create_keeps :
  forall fresh now w,
    P (disk w) -> P (disk (snd (Sqlite.create_new_session fresh now w))).

Lemma sqlite_chat_input_keeps (gw : Sqlite.gateway) (prompt : string)
      (t_user t_reply : Z) (w : Sqlite.W) :
  P (disk w) -> P (disk (snd (Sqlite.chat_input gw prompt t_user t_reply w))).
Proof.
  intros Hw. unfold Sqlite.chat_input.
  destruct (String.eqb prompt ""); [exact Hw|].
  apply (bind_keeps (fun w0 => P (disk w0))); [intros w0 H0; exact H0 | | exact Hw].
  intros _ w0 H0.
  apply (bind_keeps (fun w1 => P (disk w1))); [intros w1 H1; exact H1 | | exact H0].
  intros st w1 H1.
  apply (bind_keeps (fun w2 => P (disk w2)));
    [intros w2 H2; apply save_keeps; exact H2 | | exact H1].
  intros _ w2 H2.
  apply (bind_keeps (fun w3 => P (disk w3)));
    [intros w3 H3; rewrite sqlite_send_message_world; exact H3 | | exact H2].
  intros [reply|] w3 H3; [|exact H3].
  destruct (String.eqb reply ""); [exact H3|].
  apply (bind_keeps (fun w4 => P (disk w4))); [intros w4 H4; exact H4 | | exact H3].
  intros _ w4 H4.
  apply (bind_keeps (fun w5 => P (disk w5))); [intros w5 H5; exact H5 | | exact H4].
  intros st' w5 H5. apply save_keeps. exact H5.
Qed.

Lemma sqlite_act_keeps (a : Sqlite.action) (w : Sqlite.W) :
  P (disk w) -> P (disk (Sqlite.act a w)).
Proof.
  intros Hw. destruct a as [o|fresh now|sid]; simpl.
  - destruct o; simpl.
    + apply init_keeps, Hw.
    + apply save_keeps, Hw.
    + apply create_keeps, Hw.
    + rewrite sqlite_get_session_messages_world.
      destruct (fst (Sqlite.get_session_messages sid w)); exact Hw.
    + rewrite sqlite_get_first_user_message_world.
      destruct (fst (Sqlite.get_first_user_message sid w)); exact Hw.
    + rewrite sqlite_get_all_sessions_world.
      destruct (fst (Sqlite.get_all_sessions w)); exact Hw.
    + rewrite sqlite_sidebar_disk. exact Hw.
    + apply sqlite_chat_input_keeps, Hw.
  - unfold Sqlite.start_new_chat.
    apply (bind_keeps (fun w0 => P (disk w0)));
      [intros w0 H0; apply create_keeps; exact H0 | | exact Hw].
    intros s w0 H0. exact H0.
  - unfold Sqlite.select_session.
    apply (bind_keeps (fun w0 => P (disk w0))); [intros w0 H0; exact H0 | | exact Hw].
    intros _ w0 H0.
    apply (bind_keeps (fun w1 => P (disk w1))); [| intros s w1 H1; exact H1 | exact H0].
    intros w1 H1. rewrite sqlite_get_session_messages_world.
    destruct (fst (Sqlite.get_session_messages sid w1)); exact H1.
Qed.

End SqliteInvariant.

Lemma copilot_session_ids_kept_by_init (w : Copilot.W) :
  rows_of (sessions_table (disk (snd (Copilot.init_db w))))
  = rows_of (sessions_table (disk w)).
Proof.
  rewrite copilot_init_db_eval.
  destruct w as [[[ss|] [ms|] [|]] n st]; reflexivity.
Qed.

Lemma copilot_sessions_kept_by_save sid u r now (w : Copilot.W) :
  sessions_table (disk (snd (Copilot.save_message sid u r now w)))
  = sessions_table (disk w).
Proof.
  rewrite copilot_save_message_eval.
  destruct (messages_table (disk w)); [destruct (readonly (disk w))|]; reflexivity.
Qed.

(** X10: the session id is a key in both variants: creating a session whose
    id is in use raises [IntegrityError] on a writable store, and nothing the
    scripts do ever gives two session rows the same id. *)
Theorem session_ids_stay_unique :
  (forall (a : Copilot.action) (w : Copilot.W),
      NoDup (map Copilot.session_id (rows_of (sessions_table (disk w)))) ->
      NoDup (map Copilot.session_id
                 (rows_of (sessions_table (disk (Copilot.act a w))))))
  /\
  (forall (a : Sqlite.action) (w : Sqlite.W),
      NoDup (map Sqlite.session_id (rows_of (sessions_table (disk w)))) ->
      NoDup (map Sqlite.session_id
                 (rows_of (sessions_table (disk (Sqlite.act a w))))))
  /\
  (forall (s : Copilot.session) (now : Z) (w : Copilot.W) ss,
      sessions_table (disk w) = Some ss -> readonly (disk w) = false ->
      In s ss ->
      Copilot.create_session (Copilot.session_id s) now w
      = (Raise (IntegrityError "UNIQUE constraint failed"), w))
  /\
  (forall (s : Sqlite.session) (now : Z) (w : Sqlite.W) ss,
      sessions_table (disk w) = Some ss -> readonly (disk w) = false ->
      In s ss ->
      Sqlite.create_new_session (Sqlite.session_id s) now w
      = (Raise (IntegrityError "UNIQUE constraint failed"), left_open w)).
Proof.
  split; [|split; [|split]].
  - intros a w.
    apply (copilot_act_keeps
             (fun d => NoDup (map Copilot.session_id (rows_of (sessions_table d))))).
    + intros w0 H0. rewrite copilot_session_ids_kept_by_init. exact H0.
    + intros sid u r now w0 H0. rewrite copilot_sessions_kept_by_save. exact H0.
    + intros sid now w0 H0. rewrite copilot_create_session_eval.
      destruct w0 as [[[ss|] ms [|]] n st]; simpl in *; try exact H0.
      destruct (existsb _ ss) eqn:E; [exact H0|].
      simpl. apply (NoDup_map_snoc Copilot.session_id ss _ H0). exact E.
  - intros a w.
    apply (sqlite_act_keeps
             (fun d => NoDup (map Sqlite.session_id (rows_of (sessions_table d))))).
    + intros w0. apply (sqlite_session_ids_stay_unique Sqlite.InitDb).
    + intros sid r c now w0.
      apply (sqlite_session_ids_stay_unique (Sqlite.SaveMessage sid r c now)).
    + intros fresh now w0.
      apply (sqlite_session_ids_stay_unique (Sqlite.CreateNewSession fresh now)).
  - intros s now w ss Hs Hro Hin.
    rewrite copilot_create_session_eval, Hs, Hro.
    replace (existsb _ ss) with true; [reflexivity|].
    symmetry. apply existsb_exists. exists s.
    split; [exact Hin | apply String.eqb_refl].
  - intros s now w ss Hs Hro Hin.
    rewrite sqlite_create_new_session_eval, Hs, Hro.
    replace (existsb _ ss) with true; [reflexivity|].
    symmetry. apply existsb_exists. exists s.
    split; [exact Hin | apply String.eqb_refl].
Qed.

Lemma copilot_store_unique_ids :
  NoDup (map Copilot.session_id (rows_of (sessions_table (disk copilot_store)))).
Proof.
  simpl. constructor.
  - intros [H|[]]. discriminate H.
  - constructor; [intros [] | constructor].
Defined.

Lemma session_ids_stay_unique_witness :
  (NoDup (map Copilot.session_id (rows_of (sessions_table (disk copilot_store))))
   /\ NoDup (map Copilot.session_id
               (rows_of (sessions_table
                           (disk (Copilot.act (Copilot.StartSession "s3" 60)
                                              copilot_store))))))
  /\
  (NoDup (map Sqlite.session_id (rows_of (sessions_table (disk sqlite_store))))
   /\ NoDup (map Sqlite.session_id
               (rows_of (sessions_table
                           (disk (Sqlite.act (Sqlite.StartNewChat "s3" 60)
                                             sqlite_store))))))
  /\
  (readonly (disk copilot_store) = false
   /\ Copilot.create_session "s2" 60 copilot_store
      = (Raise (IntegrityError "UNIQUE constraint failed"), copilot_store))
  /\
  (readonly (disk sqlite_store) = false
   /\ Sqlite.create_new_session "s2" 60 sqlite_store
      = (Raise (IntegrityError "UNIQUE constraint failed"), left_open sqlite_store)).
Proof.
  split; [|split; [|split]].
  - split; [exact copilot_store_unique_ids|].
    apply (proj1 session_ids_stay_unique). exact copilot_store_unique_ids.
  - split; [exact sqlite_store_unique_ids|].
    apply (proj1 (proj2 session_ids_stay_unique)). exact sqlite_store_unique_ids.
  - split; [reflexivity|].
    apply (proj1 (proj2 (proj2 session_ids_stay_unique))
                 (Copilot.Session "s2" 20) 60 copilot_store _ eq_refl eq_refl).
    right. left. reflexivity.
  - split; [reflexivity|].
    apply (proj2 (proj2 (proj2 session_ids_stay_unique))
                 (Sqlite.Session "s2" 20 45) 60 sqlite_store _ eq_refl eq_refl).
    right. left. reflexivity.
Defined.

(** X11: in both variants, once [init_db] has returned normally both tables
    are there; nothing the scripts do afterwards removes one; and on a file
    that has both tables no query raises. *)
Theorem tables_once_created_stay :
  (forall w : Copilot.W,
      fst (Copilot.init_db w) = Ok tt ->
      has_tables (disk (snd (Copilot.init_db w))))
  /\ (forall (a : Copilot.action) (w : Copilot.W),
         has_tables (disk w) -> has_tables (disk (Copilot.act a w)))
  /\ (forall w : Copilot.W,
         has_tables (disk w) ->
         (exists rows, fst (Copilot.get_sessions w) = Ok rows)
         /\ (forall sid, exists rows,
                fst (Copilot.get_session_messages sid w) = Ok rows))
  /\ (forall w : Sqlite.W,
         fst (Sqlite.init_db w) = Ok tt ->
         has_tables (disk (snd (Sqlite.init_db w))))
  /\ (forall (a : Sqlite.action) (w : Sqlite.W),
         has_tables (disk w) -> has_tables (disk (Sqlite.act a w)))
  /\ (forall w : Sqlite.W,
         has_tables (disk w) ->
         (exists rows, fst (Sqlite.get_all_sessions w) = Ok rows)
         /\ (exists entries, fst (Sqlite.sidebar w) = Ok entries)
         /\ (forall sid, exists rows,
                fst (Sqlite.get_session_messages sid w) = Ok rows)
         /\ (forall sid, exists text,
                fst (Sqlite.get_first_user_message sid w) = Ok text)).
Proof.
  unfold has_tables.
  split; [|split; [|split; [|split; [|split]]]].
  - intros w. rewrite copilot_init_db_eval.
    destruct w as [[[ss|] [ms|] [|]] n st]; simpl;
      intros H; try discriminate H; split; discriminate.
  - intros a w. apply (copilot_act_keeps
      (fun d => sessions_table d <> None /\ messages_table d <> None)).
    + intros w0. rewrite copilot_init_db_eval.
      destruct w0 as [[[ss|] [ms|] [|]] n st]; simpl; intros [H1 H2];
        split; congruence.
    + intros sid u r now w0. rewrite copilot_save_message_eval.
      destruct w0 as [[[ss|] [ms|] [|]] n st]; simpl; intros [H1 H2];
        split; congruence.
    + intros sid now w0. rewrite copilot_create_session_eval.
      destruct w0 as [[[ss|] [ms|] [|]] n st]; simpl; intros [H1 H2];
        try (split; congruence).
      destruct (existsb _ ss); simpl; split; congruence.
  - intros w [Hs Hm].
    destruct (sessions_table (disk w)) as [ss|] eqn:Es; [|congruence].
    destruct (messages_table (disk w)) as [ms|] eqn:Em; [|congruence].
    split.
    + eexists. rewrite (copilot_get_sessions_eval w Es). reflexivity.
    + intros sid. eexists.
      rewrite (copilot_get_session_messages_eval sid w Em). reflexivity.
  - intros w. rewrite sqlite_init_db_eval.
    destruct w as [[[ss|] [ms|] [|]] n st]; simpl;
      intros H; try discriminate H; split; discriminate.
  - intros a w. apply (sqlite_act_keeps
      (fun d => sessions_table d <> None /\ messages_table d <> None)).
    + intros w0. rewrite sqlite_init_db_eval.
      destruct w0 as [[[ss|] [ms|] [|]] n st]; simpl; intros [H1 H2];
        split; congruence.
    + intros sid r c now w0. rewrite sqlite_save_message_eval.
      destruct w0 as [[[ss|] [ms|] [|]] n st]; simpl; intros [H1 H2];
        split; congruence.
    + intros fresh now w0. rewrite sqlite_create_new_session_eval.
      destruct w0 as [[[ss|] [ms|] [|]] n st]; simpl; intros [H1 H2];
        try (split; congruence).
      destruct (existsb _ ss); simpl; split; congruence.
  - intros w [Hs Hm].
    destruct (sessions_table (disk w)) as [ss|] eqn:Es; [|congruence].
    destruct (messages_table (disk w)) as [ms|] eqn:Em; [|congruence].
    split; [|split; [|split]].
    + eexists. rewrite (sqlite_get_all_sessions_eval w Es Em). reflexivity.
    + eexists. rewrite (sqlite_sidebar_eval w Es Em). reflexivity.
    + intros sid. eexists.
      rewrite (sqlite_get_session_messages_eval sid w Em). reflexivity.
    + intros sid. eexists.
      rewrite (sqlite_get_first_user_message_eval sid w Em). reflexivity.
Qed.

Lemma tables_once_created_stay_witness :
  (fst (Copilot.init_db copilot_new_file) = Ok tt
   /\ has_tables (disk (snd (Copilot.init_db copilot_new_file))))
  /\ has_tables (disk (Copilot.act (Copilot.StartSession "s1" 10)
                                   (snd (Copilot.init_db copilot_new_file))))
  /\ (fst (Sqlite.init_db sqlite_new_file) = Ok tt
      /\ has_tables (disk (snd (Sqlite.init_db sqlite_new_file))))
  /\ (exists entries,
         fst (Sqlite.sidebar (snd (Sqlite.init_db sqlite_new_file))) = Ok entries).
Proof.
  assert (Hc : has_tables (disk (snd (Copilot.init_db copilot_new_file))))
    by (apply (proj1 tables_once_created_stay); reflexivity).
  assert (Hs : has_tables (disk (snd (Sqlite.init_db sqlite_new_file))))
    by (apply (proj1 (proj2 (proj2 (proj2 tables_once_created_stay))));
        reflexivity).
  split; [split; [reflexivity | exact Hc]|].
  split; [apply (proj1 (proj2 tables_once_created_stay)); exact Hc|].
  split; [split; [reflexivity | exact Hs]|].
  apply (proj2 (proj2 (proj2 (proj2 (proj2 tables_once_created_stay)))) _ Hs).
Defined.

(** ** Connections and session start *)

(** X12: nothing chatUI-Copilot does between two reruns (the persistence
    functions, the chat input and retry handlers, session start, session
    selection, the page history) leaves a connection open, whether it returns
    or raises. *)
Theorem copilot_actions_release_connections (a : Copilot.action) (w : Copilot.W) :
  open_connections (Copilot.act a w) = open_connections w.
Proof.
  destruct a as [o|fresh now|sid|]; simpl.
  - apply copilot_connections_released.
  - unfold Copilot.start_session, bind, put_state. simpl.
    rewrite copilot_create_session_eval.
    destruct w as [[[ss|] ms [|]] n st]; simpl; try reflexivity.
    destruct (existsb _ ss); reflexivity.
  - reflexivity.
  - unfold Copilot.show_history, bind, get_state. simpl.
    rewrite copilot_get_session_messages_world. reflexivity.
Qed.

(** X13: session start.  chatUI-Copilot makes the fresh id current before it
    inserts the session row, so the id is current even when the insert
    raises and the file stays as it was; chatUI-Sqlite makes the id current,
    with an empty transcript on display, only once the row is inserted, and
    keeps its session state when the insert raises.  When the insert
    succeeds the new row is the last of the sessions table. *)
Theorem session_start (fresh : string) (now : Z) :
  (forall w : Copilot.W,
      let r := Copilot.start_session fresh now w in
      session_state (snd r) = fresh
      /\ match fst r with
         | Ok _ =>
             exists ss,
               sessions_table (disk w) = Some ss
               /\ sessions_table (disk (snd r))
                  = Some (ss ++ [Copilot.Session fresh now])
               /\ messages_table (disk (snd r)) = messages_table (disk w)
         | Raise _ => disk (snd r) = disk w
         end)
  /\
  (forall w : Sqlite.W,
      let r := Sqlite.start_new_chat fresh now w in
      match fst r with
      | Ok _ =>
          session_state (snd r) = Sqlite.State fresh []
          /\ exists ss,
              sessions_table (disk w) = Some ss
              /\ sessions_table (disk (snd r))
                 = Some (ss ++ [Sqlite.Session fresh now now])
              /\ messages_table (disk (snd r)) = messages_table (disk w)
      | Raise _ =>
          session_state (snd r) = session_state w /\ disk (snd r) = disk w
      end).
Proof.
  split; intros w; cbv zeta.
  - unfold Copilot.start_session, bind, put_state. simpl.
    rewrite copilot_create_session_eval. simpl.
    destruct w as [[[ss|] ms [|]] n st]; simpl; try (split; reflexivity).
    destruct (existsb _ ss); simpl; split; try reflexivity.
    exists ss. repeat split.
  - unfold Sqlite.start_new_chat, Sqlite.set_session_id, Sqlite.set_messages,
      bind, get_state, put_state.
    rewrite sqlite_create_new_session_eval.
    destruct w as [[[ss|] ms [|]] n st]; simpl; try (split; reflexivity).
    destruct (existsb _ ss); simpl; split; try reflexivity.
    exists ss. repeat split.
Qed.

(** ** The sidebar label *)

Lemma string_length_append (a b : string) :
  String.length (String.append a b) = (String.length a + String.length b)%nat.
Proof. induction a as [|c a IH]; simpl; [reflexivity | rewrite IH; reflexivity]. Qed.

Lemma string_prefix_length (n : nat) (s : string) :
  (n <= String.length s)%nat -> String.length (substring 0 n s) = n.
Proof.
  revert s. induction n as [|n IH]; intros [|c s]; simpl; intros H;
    try reflexivity; try lia.
  rewrite IH; [reflexivity | lia].
Qed.

Lemma string_prefix_of_append (n : nat) (a b : string) :
  String.length a = n -> substring 0 n (String.append a b) = a.
Proof.
  revert a. induction n as [|n IH]; intros [|c a]; simpl; intros H;
    try discriminate H.
  - destruct b; reflexivity.
  - rewrite IH; [reflexivity | lia].
Qed.

(** X14: the label [display_text] gives a sidebar button never has more than
    27 characters, agrees with the message on the first 24 characters, and
    is the whole message exactly when the message has at most 27
    characters. *)
Theorem display_text_bounded (text : string) :
  (String.length (Sqlite.display_text text) <= 27)%nat
  /\ substring 0 24 (Sqlite.display_text text) = substring 0 24 text
  /\ (Sqlite.display_text text = text <-> (String.length text <= 27)%nat).
Proof.
  unfold Sqlite.display_text.
  destruct (27 <? String.length text)%nat eqn:E.
  - apply Nat.ltb_lt in E.
    assert (H24 : String.length (substring 0 24 text) = 24%nat)
      by (apply string_prefix_length; lia).
    split; [rewrite string_length_append, H24; simpl; lia|].
    split; [apply string_prefix_of_append; exact H24|].
    split; [|lia].
    intros Heq. apply (f_equal String.length) in Heq.
    rewrite string_length_append, H24 in Heq. simpl in Heq. lia.
  - apply Nat.ltb_ge in E. split; [exact E|]. split; [reflexivity|].
    split; [intros _; exact E | reflexivity].
Qed.

(** ** A send without a reply *)

(** X15: in chatUI-Sqlite, for a non-empty text on a writable store that has
    its tables, when the webhook cannot be reached, answers with an error
    status, answers with a body that is not JSON, or answers with an empty
    output, the chat input handler returns normally; when the body is JSON
    without output it raises [KeyError].  In all these cases exactly the
    user's row has been committed and put on display, and no connection is
    left open. *)
Theorem sqlite_chat_input_without_reply
        (gw : Sqlite.gateway) (prompt : string) (t_user t_reply : Z)
        (w : Sqlite.W) (ss : list Sqlite.session) (ms : list Sqlite.message) :
  prompt <> "" ->
  sessions_table (disk w) = Some ss ->
  messages_table (disk w) = Some ms ->
  readonly (disk w) = false ->
  let sid := Sqlite.current_session (session_state w) in
  let user_row := Sqlite.Message (next_rowid Sqlite.id ms) sid "user" prompt t_user in
  let at_call :=
    Database (Some (map (fun s => if String.eqb (Sqlite.session_id s) sid
                                  then Sqlite.Session (Sqlite.session_id s)
                                                      (Sqlite.created_at s) t_user
                                  else s) ss))
             (Some (ms ++ [user_row])) false in
  let r := Sqlite.chat_input gw prompt t_user t_reply w in
  let recorded :=
    snd r = World at_call (open_connections w)
                  (Sqlite.State sid (Sqlite.messages (session_state w)
                                     ++ [("user", prompt)])) in
  match gw at_call sid prompt with
  | Response true (Json (Some reply)) => reply = "" -> fst r = Ok tt /\ recorded
  | Response true (Json None) => fst r = Raise (KeyError "output") /\ recorded
  | _ => fst r = Ok tt /\ recorded
  end.
Proof.
  destruct w as [[ss' ms' ro] n [sid shown]]. simpl.
  intros Hp Hs Hm Hro; subst.
  apply String.eqb_neq in Hp.
  unfold Sqlite.chat_input. rewrite Hp.
  unfold Sqlite.append_shown, bind, get_state, put_state; simpl.
  unfold Sqlite.send_message; simpl.
  destruct (gw _ sid prompt) as [|[|] [|[reply|]]]; simpl;
    try (split; reflexivity).
  intros ->. simpl. split; reflexivity.
Qed.

Lemma sqlite_chat_input_without_reply_witness :
  "ping" <> ""
  /\ readonly (disk sqlite_store) = false
  /\ fst (Sqlite.chat_input sqlite_gateway_down "ping" 60 61 sqlite_store) = Ok tt
  /\ snd (Sqlite.chat_input sqlite_gateway_down "ping" 60 61 sqlite_store)
     = World (Database (Some [Sqlite.Session "s1" 10 10; Sqlite.Session "s2" 20 60])
                       (Some [Sqlite.Message 1 "s2" "user" "hello" 40;
                              Sqlite.Message 2 "s2" "assistant" "hi there" 45;
                              Sqlite.Message 3 "s2" "user" "ping" 60])
                       false)
             0%nat
             (Sqlite.State "s2" [("user", "hello"); ("assistant", "hi there");
                                 ("user", "ping")]).
Proof.
  assert (Hping : "ping" <> "") by discriminate.
  split; [exact Hping|]. split; [reflexivity|].
  exact (@sqlite_chat_input_without_reply sqlite_gateway_down "ping" 60 61
           sqlite_store _ _ Hping eq_refl eq_refl eq_refl).
Defined.

(** ** The first user message as the conversation grows *)

Lemma user_rows_snoc (sid : string) (ms : list Sqlite.message)
      (row : Sqlite.message) :
  (forall m, In m ms -> Sqlite.msg_session_id m = sid ->
             Sqlite.timestamp m < Sqlite.timestamp row) ->
  Sqlite.user_rows sid (ms ++ [row])
  = if String.eqb (Sqlite.msg_session_id row) sid
       && String.eqb (Sqlite.role row) "user"
    then Sqlite.user_rows sid ms ++ [row]
    else Sqlite.user_rows sid ms.
Proof.
  intros Hlater. unfold Sqlite.user_rows. rewrite filter_app. simpl.
  destruct (String.eqb (Sqlite.msg_session_id row) sid
            && String.eqb (Sqlite.role row) "user");
    [|rewrite app_nil_r; reflexivity].
  apply order_by_snoc. intros y Hy. apply filter_In in Hy.
  destruct Hy as [Hin Hsel]. apply andb_true_iff in Hsel.
  destruct Hsel as [Hs _]. apply String.eqb_eq in Hs.
  unfold asc. apply Z.leb_le. specialize (Hlater y Hin Hs). lia.
Qed.

(** X16: in chatUI-Sqlite, on a writable store that has its tables, a message
    saved at a time later than the stored rows of session [sid] becomes the
    first user message of [sid] if it is a user message of [sid] and [sid]
    had none; otherwise, in whichever session and role it is saved, the first
    user message of [sid], and so its sidebar label, stays what it was. *)
Theorem first_user_message_settled
        (sid to role_ content_ : string) (now : Z) (w : Sqlite.W)
        (ss : list Sqlite.session) (ms : list Sqlite.message) :
  sessions_table (disk w) = Some ss ->
  messages_table (disk w) = Some ms ->
  readonly (disk w) = false ->
  (forall m, In m ms -> Sqlite.msg_session_id m = sid -> Sqlite.timestamp m < now) ->
  let after := snd (Sqlite.save_message to role_ content_ now w) in
  ((forall m, In m ms ->
              ~ (Sqlite.msg_session_id m = sid /\ Sqlite.role m = "user")) ->
   to = sid -> role_ = "user" ->
   fst (Sqlite.get_first_user_message sid after) = Ok content_)
  /\
  ((exists m, In m ms /\ Sqlite.msg_session_id m = sid /\ Sqlite.role m = "user")
   \/ to <> sid \/ role_ <> "user" ->
   fst (Sqlite.get_first_user_message sid after)
   = fst (Sqlite.get_first_user_message sid w)).
Proof.
  intros Hs Hm Hro Hlater. cbv zeta.
  rewrite sqlite_save_message_eval, Hm, Hro, Hs. cbn [snd].
  set (row := Sqlite.Message (next_rowid Sqlite.id ms) to role_ content_ now).
  erewrite sqlite_get_first_user_message_eval by reflexivity.
  rewrite (sqlite_get_first_user_message_eval sid w Hm). cbn [fst].
  rewrite (@user_rows_snoc sid ms row) by exact Hlater. simpl.
  split.
  - intros Hnone -> ->. rewrite String.eqb_refl. simpl.
    replace (Sqlite.user_rows sid ms) with (@nil Sqlite.message); [reflexivity|].
    symmetry. unfold Sqlite.user_rows. rewrite filter_none; [reflexivity|].
    intros m Hin. apply andb_false_iff.
    destruct (String.eqb (Sqlite.msg_session_id m) sid) eqn:E1; [|left; reflexivity].
    destruct (String.eqb (Sqlite.role m) "user") eqn:E2; [|right; reflexivity].
    exfalso. apply (Hnone m Hin). split; apply String.eqb_eq; assumption.
  - intros [[m [Hin [Hsid Hrole]]]|[Hto|Hrole]].
    + destruct (String.eqb to sid && String.eqb role_ "user"); [|reflexivity].
      assert (Hne : Sqlite.user_rows sid ms <> []).
      { intros E.
        assert (Hm' : In m (Sqlite.user_rows sid ms)).
        { unfold Sqlite.user_rows.
          apply (Permutation_in _ (Permutation_sym (order_by_perm _ _))).
          apply filter_In. split; [exact Hin|].
          rewrite Hsid, Hrole, !String.eqb_refl. reflexivity. }
        rewrite E in Hm'. exact Hm'. }
      destruct (Sqlite.user_rows sid ms); [contradiction Hne; reflexivity|].
      reflexivity.
    + apply String.eqb_neq in Hto. rewrite Hto. reflexivity.
    + apply String.eqb_neq in Hrole. rewrite Hrole, andb_false_r. reflexivity.
Qed.

Lemma first_user_message_settled_witness :
  readonly (disk sqlite_store) = false
  /\ fst (Sqlite.get_first_user_message "s1"
            (snd (Sqlite.save_message "s1" "user" "first words" 60 sqlite_store)))
     = Ok "first words"
  /\ fst (Sqlite.get_first_user_message "s2"
            (snd (Sqlite.save_message "s2" "user" "more" 60 sqlite_store)))
     = fst (Sqlite.get_first_user_message "s2" sqlite_store).
Proof.
  split; [reflexivity|]. split.
  - apply (@first_user_message_settled "s1" "s1" "user" "first words" 60
             sqlite_store _ _ eq_refl eq_refl eq_refl).
    + simpl. intros m [<-|[<-|[]]] H; discriminate H.
    + simpl. intros m [<-|[<-|[]]] [H _]; discriminate H.
    + reflexivity.
    + reflexivity.
  - apply (@first_user_message_settled "s2" "s2" "user" "more" 60
             sqlite_store _ _ eq_refl eq_refl eq_refl).
    + simpl. intros m [<-|[<-|[]]] _; reflexivity.
    + left. exists (Sqlite.Message 1 "s2" "user" "hello" 40).
      split; [left; reflexivity|]. split; reflexivity.
Defined.
